(** * runc: the systemd cgroup-v1 manager and the eBPF device-filter attacher

    A shallow embedding of
      - libcontainer/cgroups/systemd/v1.go   (package systemd, [legacyManager])
      - the device-filter attacher            (package ebpf)
    Go functions that talk to the kernel, to systemd or to the cgroup
    file system are modelled as computations over the chronological list of
    external calls issued so far; what a collaborator answers may depend on
    that whole history.  Collaborators that live outside the two files are
    fields of a type class of externals. *)

From Stdlib Require Import ZArith String List Lia Bool.
From stdpp Require Import base option list gmap strings.
From Equations Require Import Equations.

Local Open Scope string_scope.
Local Open Scope list_scope.

(** ** Go values shared by both packages *)

Module Go.

(** A Go [error] value: [errors.New], a raw [syscall.Errno], or
    [fmt.Errorf("msg: %w", cause)]. *)
Inductive error : Type :=
| ErrNew (msg : string)
| ErrErrno (errno : Z)
| ErrWrap (msg : string) (cause : error).

(** A Go result pair [(A, error)]; a function returning only [error]
    is a [result unit]. *)
Inductive result (A : Type) : Type :=
| Ok (a : A)
| Err (e : error).
Arguments Ok {A} a.
Arguments Err {A} e.

Definition is_err {A} (r : result A) : bool :=
  match r with Ok _ => false | Err _ => true end.

(** [strings.HasSuffix] and [strings.TrimSuffix]. *)
Definition HasSuffix (s suffix : string) : bool :=
  (String.length suffix <=? String.length s)%nat
  && String.eqb (substring (String.length s - String.length suffix)
                           (String.length suffix) s) suffix.

Definition TrimSuffix (s suffix : string) : string :=
  if HasSuffix s suffix
  then substring 0 (String.length s - String.length suffix) s
  else s.

(** Integer conversions [uint64(x)] and [uint32(x)]. *)
Definition uint64 (x : Z) : Z := (x mod 2 ^ 64)%Z.
Definition uint32 (x : Z) : Z := (x mod 2 ^ 32)%Z.

End Go.

(** ** Package systemd: the legacy (cgroup v1) manager *)

Module Systemd.
Import Go.

(** [configs.FreezerState] *)
Inductive FreezerState : Type := Undefined | Frozen | Thawed.

(** A D-Bus variant, as far as the property values of this package go. *)
Inductive Variant : Type :=
| VString (s : string)
| VStrings (l : list string)
| VBool (b : bool)
| VUint64 (n : Z)
| VUint32s (l : list Z)
| VDeviceRules (l : list (string * string)).

(** [systemdDbus.Property] *)
Record Property : Type := mkProperty { Name : string; Value : Variant }.

Definition newProp (name : string) (units : Variant) : Property :=
  mkProperty name units.
Definition PropDescription (desc : string) : Property :=
  mkProperty "Description" (VString desc).
Definition PropWants (slice : string) : Property :=
  mkProperty "Wants" (VStrings [slice]).
Definition PropSlice (slice : string) : Property :=
  mkProperty "Slice" (VString slice).

(** The controllers of [legacySubsystems], in the order of the source. *)
Inductive subsystem : Type :=
| CpusetGroup | DevicesGroup | MemoryGroup | CpuGroup | CpuacctGroup
| PidsGroup | BlkioGroup | HugetlbGroup | PerfEventGroup | FreezerGroup
| NetPrioGroup | NetClsGroup
| NameGroup (GroupName : string).

(** [subsystem.Name()], as the controllers of package fs implement it. *)
Definition subsystemName (s : subsystem) : string :=
  match s with
  | CpusetGroup => "cpuset"
  | DevicesGroup => "devices"
  | MemoryGroup => "memory"
  | CpuGroup => "cpu"
  | CpuacctGroup => "cpuacct"
  | PidsGroup => "pids"
  | BlkioGroup => "blkio"
  | HugetlbGroup => "hugetlb"
  | PerfEventGroup => "perf_event"
  | FreezerGroup => "freezer"
  | NetPrioGroup => "net_prio"
  | NetClsGroup => "net_cls"
  | NameGroup n => n
  end.

Definition legacySubsystems : list subsystem :=
  [ CpusetGroup; DevicesGroup; MemoryGroup; CpuGroup; CpuacctGroup;
    PidsGroup; BlkioGroup; HugetlbGroup; PerfEventGroup; FreezerGroup;
    NetPrioGroup; NetClsGroup; NameGroup "name=systemd" ].

Definition errSubsystemDoesNotExist : error :=
  ErrNew "cgroup: subsystem does not exist".

Section Model.
(** Types declared outside v1.go: a device rule of [r.Devices], the
    D-Bus connection manager and the statistics aggregate. *)
Context {DeviceRule dbusConnManager Stats : Type}.

(** [configs.Resources], the fields this file reads.  [Unified] is
    [None] for a nil map. *)
Record Resources : Type := mkResources {
  Devices : list DeviceRule;
  Memory : Z;            (* int64 *)
  CpuShares : Z;         (* uint64 *)
  CpuQuota : Z;          (* int64 *)
  CpuPeriod : Z;         (* uint64 *)
  BlkioWeight : Z;       (* uint16 *)
  PidsLimit : Z;         (* int64 *)
  CpusetCpus : string;
  CpusetMems : string;
  Freezer : FreezerState;
  Unified : option (gmap string string)
}.

Definition withFreezer (r : Resources) (st : FreezerState) : Resources :=
  mkResources (Devices r) (Memory r) (CpuShares r) (CpuQuota r)
              (CpuPeriod r) (BlkioWeight r) (PidsLimit r)
              (CpusetCpus r) (CpusetMems r) st (Unified r).

(** [configs.Cgroup]; [Paths] is [None] for a nil map.  The [Resources]
    field is the object [c.Resources] points to. *)
Record Cgroup : Type := mkCgroup {
  CgName : string;
  Parent : string;
  ScopePrefix : string;
  Paths : option (gmap string string);
  CgResources : Resources;
  SkipDevices : bool;
  SystemdProps : list Property
}.

Definition withResources (c : Cgroup) (r : Resources) : Cgroup :=
  mkCgroup (CgName c) (Parent c) (ScopePrefix c) (Paths c) r
           (SkipDevices c) (SystemdProps c).

Record legacyManager : Type := mkLegacyManager {
  cgroups : Cgroup;
  paths : gmap string string;
  dbus : dbusConnManager
}.

(** One external call, or one operation on the manager's mutex. *)
Inductive Event : Type :=
| EvLock
| EvUnlock
| EvStartUnit (unitName : string) (properties : list Property)
| EvStopUnit (unitName : string)
| EvSetUnitProperties (unitName : string) (properties : list Property)
| EvParseCgroupFile (file : string)
| EvEnterPid (cgPaths : gmap string string) (pid : Z)
| EvRemovePaths (cgPaths : gmap string string)
| EvFindCgroupMountpoint (cgroupPath subsys : string)
| EvGetInitCgroup (subsys : string)
| EvMkdirAll (path : string) (perm : Z)
| EvWriteCgroupProc (path : string) (pid : Z)
| EvCpusetApplyDir (path : string) (r : Resources) (pid : Z)
| EvSubsystemSet (sys : subsystem) (path : string) (r : Resources)
| EvSubsystemGetStats (sys : subsystem) (path : string)
| EvFreezerGetState (path : string)
| EvGetPids (path : string)
| EvGetAllPids (path : string)
| EvLogInfo (msg : string) (err : error).

Definition History : Type := list Event.

(** The collaborators of v1.go.  The pure ones are functions; the
    answer of an effectful one is a function of the calls made before
    it. *)
Class Externals : Type := {
  (* package systemd, other files *)
  newDbusConnManager : bool -> dbusConnManager;
  getUnitName : Cgroup -> string;
  ExpandSlice : string -> result string;
  generateDeviceProperties : list DeviceRule -> result (list Property);
  addCpuQuota :
    dbusConnManager -> list Property -> Z -> Z -> list Property;
  addCpuset :
    dbusConnManager -> list Property -> string -> string ->
    list Property * option error;
  startUnit : History -> dbusConnManager -> string -> list Property ->
              result unit;
  stopUnit : History -> dbusConnManager -> string -> result unit;
  setUnitProperties :
    History -> dbusConnManager -> string -> list Property -> result unit;
  (* package cgroups *)
  ErrV1NoUnified : error;
  IsNotFound : error -> bool;
  NewStats : Stats;
  ParseCgroupFile : History -> string -> result (gmap string string);
  EnterPid : History -> gmap string string -> Z -> result unit;
  (* RemovePaths deletes from the map it is given the entries it has
     removed from disk: it answers with the map that is left *)
  RemovePaths :
    History -> gmap string string -> gmap string string * result unit;
  FindCgroupMountpoint : History -> string -> string -> result string;
  GetInitCgroup : History -> string -> result string;
  WriteCgroupProc : History -> string -> Z -> result unit;
  cgroupsGetPids : History -> string -> result (list Z);
  cgroupsGetAllPids : History -> string -> result (list Z);
  (* package fs *)
  CpusetApplyDir : History -> string -> Resources -> Z -> result unit;
  SubsystemSet : History -> subsystem -> string -> Resources -> result unit;
  SubsystemGetStats :
    History -> subsystem -> string -> Stats -> Stats * result unit;
  FreezerGetState : History -> string -> result FreezerState;
  (* os, path/filepath *)
  MkdirAll : History -> string -> Z -> result unit;
  filepath_Clean : string -> string;
  filepath_Join : list string -> string
}.

Context {X : Externals}.

(** *** The translator *)

(** The Go pair [([]systemdDbus.Property, error)] is kept as a pair:
    the nil slice is [[]], a nil error is [None]. *)
Definition genV1ResourcesProperties (r : Resources) (cm : dbusConnManager)
  : list Property * option error :=
  let properties : list Property := [] in
  match generateDeviceProperties (Devices r) with
  | Err err => ([], Some err)
  | Ok deviceProperties =>
    let properties := properties ++ deviceProperties in
    let properties :=
      if negb (Memory r =? 0)%Z
      then properties ++ [newProp "MemoryLimit" (VUint64 (uint64 (Memory r)))]
      else properties in
    let properties :=
      if negb (CpuShares r =? 0)%Z
      then properties ++ [newProp "CPUShares" (VUint64 (CpuShares r))]
      else properties in
    let properties := addCpuQuota cm properties (CpuQuota r) (CpuPeriod r) in
    let properties :=
      if negb (BlkioWeight r =? 0)%Z
      then properties ++
           [newProp "BlockIOWeight" (VUint64 (uint64 (BlkioWeight r)))]
      else properties in
    let properties :=
      if (0 <? PidsLimit r)%Z || (PidsLimit r =? -1)%Z
      then properties ++
           [newProp "TasksMax" (VUint64 (uint64 (PidsLimit r)))]
      else properties in
    match addCpuset cm properties (CpusetCpus r) (CpusetMems r) with
    | (_, Some err) => ([], Some err)
    | (properties, None) => (properties, None)
    end
  end.

(** *** State and effects

    A method of [*legacyManager] runs on the manager object and on the
    history of calls; it answers with a Go result and the new state. *)

Record State : Type := mkState { mgr : legacyManager; trace : History }.

Definition M (A : Type) : Type := State -> result A * State.

Definition ret {A} (a : A) : M A := fun s => (Ok a, s).

Definition fail {A} (e : error) : M A := fun s => (Err e, s).

Definition bind {A B} (c : M A) (k : A -> M B) : M B :=
  fun s =>
    match c s with
    | (Ok a, s') => k a s'
    | (Err e, s') => (Err e, s')
    end.

(** [err := f()] where the caller goes on and looks at [err] itself. *)
Definition attempt {A} (c : M A) : M (result A) :=
  fun s => let (r, s') := c s in (Ok r, s').

Definition fromResult {A} (r : result A) : M A := fun s => (r, s).

(** An external call: it is answered from the history so far and then
    recorded. *)
Definition call {A} (ev : Event) (answer : History -> result A) : M A :=
  fun s => (answer (trace s), mkState (mgr s) (trace s ++ [ev])).

Definition emit (ev : Event) : M unit :=
  fun s => (Ok tt, mkState (mgr s) (trace s ++ [ev])).

Definition getMgr : M legacyManager := fun s => (Ok (mgr s), s).

(** [m.paths = p] *)
Definition setPaths (p : gmap string string) : M unit :=
  fun s =>
    (Ok tt, mkState (mkLegacyManager (cgroups (mgr s)) p (dbus (mgr s)))
                    (trace s)).

(** [m.cgroups.Resources.Freezer = st] *)
Definition setFreezer (st : FreezerState) : M unit :=
  fun s =>
    let m := mgr s in
    let c := cgroups m in
    (Ok tt,
     mkState (mkLegacyManager
                (withResources c (withFreezer (CgResources c) st))
                (paths m) (dbus m))
             (trace s)).

(** [m.mu.Lock(); defer m.mu.Unlock()] around the rest of a method:
    the unlock runs on every return path. *)
Definition locked {A} (body : M A) : M A :=
  fun s =>
    let (r, s') := body (mkState (mgr s) (trace s ++ [EvLock])) in
    (r, mkState (mgr s') (trace s' ++ [EvUnlock])).

Declare Scope go_scope.
Delimit Scope go_scope with go.
Notation "x <- c ;; k" := (bind c (fun x => k))
  (at level 100, c at next level, k at level 200, right associativity)
  : go_scope.
Notation "c ;; k" := (bind c (fun _ => k))
  (at level 100, k at level 200, right associativity) : go_scope.
Local Open Scope go_scope.

(** The [*configs.Resources] a caller hands to [Set]: the very object
    the manager's config points to, or another one. *)
Inductive ResourcesRef : Type :=
| RefConfig
| RefOther (r : Resources).

Definition deref (r : ResourcesRef) : M Resources :=
  m <- getMgr ;;
  ret match r with
      | RefConfig => CgResources (cgroups m)
      | RefOther r => r
      end.

(** *** The manager *)

Definition NewLegacyManager (cg : Cgroup) (paths : gmap string string)
  : legacyManager :=
  mkLegacyManager cg paths (newDbusConnManager false).

Definition getSubsystemPath (c : Cgroup) (subsystem : string) : M string :=
  mountpoint <-
    call (EvFindCgroupMountpoint "" subsystem)
         (fun h => FindCgroupMountpoint h "" subsystem) ;;
  initPath <-
    call (EvGetInitCgroup subsystem) (fun h => GetInitCgroup h subsystem) ;;
  let initPath := TrimSuffix (filepath_Clean initPath) "init.scope" in
  let slice := "system.slice" in
  let slice := if negb (String.eqb (Parent c) "") then Parent c else slice in
  slice <- fromResult (ExpandSlice slice) ;;
  ret (filepath_Join [mountpoint; initPath; slice; getUnitName c]).

(** The loop of [joinCgroups] over the subsystems still to visit. *)
Fixpoint joinCgroupsLoop (pid : Z) (subsystems : list subsystem) : M unit :=
  match subsystems with
  | [] => ret tt
  | sys :: rest =>
    let name := subsystemName sys in
    m <- getMgr ;;
    (if String.eqb name "name=systemd" then ret tt
     else if String.eqb name "cpuset" then
       match paths m !! name with
       | Some path =>
         call (EvCpusetApplyDir path (CgResources (cgroups m)) pid)
              (fun h => CpusetApplyDir h path (CgResources (cgroups m)) pid)
       | None => ret tt
       end
     else
       match paths m !! name with
       | Some path =>
         call (EvMkdirAll path 493) (fun h => MkdirAll h path 493) ;;
         call (EvWriteCgroupProc path pid)
              (fun h => WriteCgroupProc h path pid)
       | None => ret tt
       end) ;;
    joinCgroupsLoop pid rest
  end.

Definition joinCgroups (pid : Z) : M unit :=
  joinCgroupsLoop pid legacySubsystems.

(** The path-resolving loop of [Apply]; [acc] is the local [paths]. *)
Fixpoint resolvePathsLoop (subsystems : list subsystem)
         (acc : gmap string string) : M (gmap string string) :=
  match subsystems with
  | [] => ret acc
  | s :: rest =>
    m <- getMgr ;;
    r <- attempt (getSubsystemPath (cgroups m) (subsystemName s)) ;;
    match r with
    | Err err =>
      if String.eqb (subsystemName s) "devices" then fail err
      else if IsNotFound err then resolvePathsLoop rest acc
      else fail err
    | Ok subsystemPath =>
      resolvePathsLoop rest (<[subsystemName s := subsystemPath]> acc)
    end
  end.

Definition Apply (pid : Z) : M unit :=
  m <- getMgr ;;
  let c := cgroups m in
  let unitName := getUnitName c in
  let slice := "system.slice" in
  let properties : list Property := [] in
  match Unified (CgResources c) with
  | Some _ => fail ErrV1NoUnified
  | None =>
    locked
      match Paths c with
      | Some cPaths =>
        cgMap <-
          call (EvParseCgroupFile "/proc/self/cgroup")
               (fun h => ParseCgroupFile h "/proc/self/cgroup") ;;
        let joined : gmap string string :=
          filter (fun kv => is_Some (cgMap !! kv.1)) cPaths in
        setPaths joined ;;
        m <- getMgr ;;
        call (EvEnterPid (paths m) pid)
             (fun h => EnterPid h (paths m) pid)
      | None =>
        let slice :=
          if negb (String.eqb (Parent c) "") then Parent c else slice in
        let properties :=
          properties ++
          [PropDescription (String.append "libcontainer container " (CgName c))] in
        let properties :=
          if HasSuffix unitName ".slice"
          then properties ++ [PropWants slice]
          else properties ++ [PropSlice slice] in
        let properties :=
          if negb (pid =? -1)%Z
          then properties ++ [newProp "PIDs" (VUint32s [uint32 pid])]
          else properties in
        let properties :=
          if negb (HasSuffix unitName ".slice")
          then properties ++ [newProp "Delegate" (VBool true)]
          else properties in
        let properties :=
          properties ++
          [ newProp "MemoryAccounting" (VBool true);
            newProp "CPUAccounting" (VBool true);
            newProp "BlockIOAccounting" (VBool true);
            newProp "TasksAccounting" (VBool true) ] in
        let properties :=
          properties ++ [newProp "DefaultDependencies" (VBool false)] in
        let properties := properties ++ SystemdProps c in
        call (EvStartUnit unitName properties)
             (fun h => startUnit h (dbus m) unitName properties) ;;
        paths <- resolvePathsLoop legacySubsystems ∅ ;;
        setPaths paths ;;
        joinCgroups pid
      end
  end.

(** [cgroups.RemovePaths(m.paths)]: the call also shrinks the map. *)
Definition callRemovePaths : M unit :=
  fun s =>
    let m := mgr s in
    let (left, r) := RemovePaths (trace s) (paths m) in
    (r, mkState (mkLegacyManager (cgroups m) left (dbus m))
                (trace s ++ [EvRemovePaths (paths m)])).

Definition Destroy : M unit :=
  m <- getMgr ;;
  match Paths (cgroups m) with
  | Some _ => ret tt
  | None =>
    locked
      (stopErr <-
         attempt (call (EvStopUnit (getUnitName (cgroups m)))
                       (fun h => stopUnit h (dbus m)
                                          (getUnitName (cgroups m)))) ;;
       err <- attempt callRemovePaths ;;
       match err, stopErr with
       | Err err, Ok _ => fail err
       | _, _ => fromResult stopErr
       end)
  end.

Definition Path (subsys : string) : M string :=
  locked (m <- getMgr ;; ret (default "" (paths m !! subsys))).

Definition Freeze (state : FreezerState) : M unit :=
  m <- getMgr ;;
  match paths m !! "freezer" with
  | None => fail errSubsystemDoesNotExist
  | Some path =>
    let prevState := Freezer (CgResources (cgroups m)) in
    setFreezer state ;;
    m <- getMgr ;;
    r <- attempt
           (call (EvSubsystemSet FreezerGroup path (CgResources (cgroups m)))
                 (fun h => SubsystemSet h FreezerGroup path
                                        (CgResources (cgroups m)))) ;;
    match r with
    | Err err => setFreezer prevState ;; fail err
    | Ok _ => ret tt
    end
  end.

Definition GetPids : M (list Z) :=
  m <- getMgr ;;
  match paths m !! "devices" with
  | None => fail errSubsystemDoesNotExist
  | Some path => call (EvGetPids path) (fun h => cgroupsGetPids h path)
  end.

Definition GetAllPids : M (list Z) :=
  m <- getMgr ;;
  match paths m !! "devices" with
  | None => fail errSubsystemDoesNotExist
  | Some path => call (EvGetAllPids path) (fun h => cgroupsGetAllPids h path)
  end.

(** [sys.GetStats(path, stats)] fills the shared aggregate. *)
Definition callGetStats (sys : subsystem) (path : string) (stats : Stats)
  : M Stats :=
  fun s =>
    let (stats', r) := SubsystemGetStats (trace s) sys path stats in
    (match r with Ok _ => Ok stats' | Err e => Err e end,
     mkState (mgr s) (trace s ++ [EvSubsystemGetStats sys path])).

Fixpoint getStatsLoop (subsystems : list subsystem) (stats : Stats)
  : M Stats :=
  match subsystems with
  | [] => ret stats
  | sys :: rest =>
    m <- getMgr ;;
    let path := default "" (paths m !! subsystemName sys) in
    if String.eqb path "" then getStatsLoop rest stats
    else
      stats <- callGetStats sys path stats ;;
      getStatsLoop rest stats
  end.

Definition GetStats : M Stats :=
  locked (getStatsLoop legacySubsystems NewStats).

Definition GetFreezerState : M FreezerState :=
  m <- getMgr ;;
  match paths m !! "freezer" with
  | None => ret Undefined
  | Some path =>
    call (EvFreezerGetState path) (fun h => FreezerGetState h path)
  end.

(** The closing loop of [Set] over the subsystems still to visit. *)
Fixpoint setLoop (r : ResourcesRef) (subsystems : list subsystem) : M unit :=
  match subsystems with
  | [] => ret tt
  | sys :: rest =>
    m <- getMgr ;;
    match paths m !! subsystemName sys with
    | None => setLoop r rest
    | Some path =>
      r0 <- deref r ;;
      call (EvSubsystemSet sys path r0)
           (fun h => SubsystemSet h sys path r0) ;;
      setLoop r rest
    end
  end.

Definition Set_ (r : ResourcesRef) : M unit :=
  m <- getMgr ;;
  match Paths (cgroups m) with
  | Some _ => ret tt
  | None =>
    r0 <- deref r ;;
    match Unified r0 with
    | Some _ => fail ErrV1NoUnified
    | None =>
      let (properties, err) := genV1ResourcesProperties r0 (dbus m) in
      match err with
      | Some err => fail err
      | None =>
      let targetFreezerState := Undefined in
      targetFreezerState <-
        (if negb (SkipDevices (cgroups m)) then
           targetFreezerState <- GetFreezerState ;;
           let targetFreezerState :=
             match targetFreezerState with
             | Undefined => Thawed
             | st => st
             end in
           err <- attempt (Freeze Frozen) ;;
           match err with
           | Err err =>
             emit (EvLogInfo
                     "freeze container before SetUnitProperties failed" err)
           | Ok _ => ret tt
           end ;;
           ret targetFreezerState
         else ret targetFreezerState) ;;
      m <- getMgr ;;
      err <-
        attempt
          (call (EvSetUnitProperties (getUnitName (cgroups m)) properties)
                (fun h => setUnitProperties h (dbus m)
                            (getUnitName (cgroups m)) properties)) ;;
      match err with
      | Err err =>
        _ <- attempt (Freeze targetFreezerState) ;;
        fail err
      | Ok _ =>
        _ <- attempt (Freeze targetFreezerState) ;;
        setLoop r legacySubsystems
      end
      end
    end
  end.

Definition GetPaths : M (gmap string string) :=
  locked (m <- getMgr ;; ret (paths m)).

Definition GetCgroups : M Cgroup :=
  m <- getMgr ;; ret (cgroups m).

End Model.
End Systemd.

(** ** Package ebpf: the device-filter attacher *)

Module Ebpf.
Import Go.

(** Constants of golang.org/x/sys/unix and of the kernel's bpf.h. *)
Definition ENOSPC : Z := 28.
Definition BPF_CGROUP_DEVICE : Z := 6.
Definition BPF_F_ALLOW_MULTI : Z := 2.
Definition RLIMIT_MEMLOCK : Z := 8.
Definition RLIM_INFINITY : Z := (2 ^ 64 - 1)%Z.

(** [ebpf.ProgramType] and [ebpf.AttachType], the values used here. *)
Inductive ProgramType : Type := CGroupDevice.
Inductive AttachType : Type := AttachCGroupDevice.

(** What one BPF_PROG_QUERY leaves behind: the errno of the syscall, the
    [ProgCnt] field of the query structure after the call, and the ids
    the kernel has written to the start of the buffer. *)
Record QueryReply : Type := mkQueryReply {
  errno : Z;
  ProgCnt : nat;
  written : list Z
}.

(** A Go function either returns or panics. *)
Inductive outcome (A : Type) : Type :=
| Return (a : A)
| Panic (reason : string).
Arguments Return {A} a.
Arguments Panic {A} reason.

Section Model.
(** [*ebpf.Program] and [asm.Instructions] *)
Context {Program Instructions : Type}.

Record ProgramSpec : Type := mkProgramSpec {
  SpecType : ProgramType;
  SpecInstructions : Instructions;
  License : string
}.

Record RawAttachProgramOptions : Type := mkRawAttach {
  AttachTarget : Z;
  AttachProgram : Program;
  Replace : option Program;
  AttachAttach : AttachType;
  Flags : Z
}.

Record RawDetachProgramOptions : Type := mkRawDetach {
  DetachTarget : Z;
  DetachProgram : Program;
  DetachAttach : AttachType
}.

Inductive Event : Type :=
| EvSetrlimit (resource cur max : Z)
| EvProgQuery (TargetFd AttachType : Z) (bufLen : nat)
| EvNewProgramFromID (id : Z)
| EvNewProgram (spec : ProgramSpec)
| EvRawAttachProgram (opts : RawAttachProgramOptions)
| EvRawDetachProgram (opts : RawDetachProgramOptions)
| EvWarnf (msg : string) (n : nat).

Definition History : Type := list Event.

Definition isProgQuery (e : Event) : bool :=
  match e with EvProgQuery _ _ _ => true | _ => false end.

(** The number of BPF_PROG_QUERY calls in a history. *)
Definition queriesIn (h : History) : nat :=
  length (List.filter isProgQuery h).

(** The kernel and the cilium/ebpf library.  [progQueryReply n] is the
    kernel's answer to the [n]-th BPF_PROG_QUERY issued (from 0); the
    other answers are functions of the calls made before. *)
Class Kernel : Type := {
  progQueryReply : nat -> QueryReply;
  NewProgramFromID : History -> Z -> result Program;
  NewProgram : History -> ProgramSpec -> result Program;
  RawAttachProgram : History -> RawAttachProgramOptions -> result unit;
  RawDetachProgram : History -> RawDetachProgramOptions -> result unit
}.

Context {K : Kernel}.

Definition M (A : Type) : Type := History -> outcome A * History.

Definition ret {A} (a : A) : M A := fun h => (Return a, h).

Definition panic {A} (reason : string) : M A := fun h => (Panic reason, h).

Definition bind {A B} (c : M A) (k : A -> M B) : M B :=
  fun h =>
    match c h with
    | (Return a, h') => k a h'
    | (Panic reason, h') => (Panic reason, h')
    end.

Definition call {A} (ev : Event) (answer : History -> A) : M A :=
  fun h => (Return (answer h), h ++ [ev]).

Declare Scope ebpf_scope.
Notation "x <- c ;; k" := (bind c (fun x => k))
  (at level 100, c at next level, k at level 200, right associativity)
  : ebpf_scope.
Notation "c ;; k" := (bind c (fun _ => k))
  (at level 100, k at level 200, right associativity) : ebpf_scope.
Local Open Scope ebpf_scope.

(** The loop that turns ids into program handles. *)
Fixpoint programsFromIDs (progIds : list Z) : M (result (list Program)) :=
  match progIds with
  | [] => ret (Ok [])
  | progId :: rest =>
    r <- call (EvNewProgramFromID progId)
              (fun h => NewProgramFromID h progId) ;;
    match r with
    | Err err => ret (Err (ErrWrap "cannot fetch program from id" err))
    | Ok program =>
      rs <- programsFromIDs rest ;;
      ret match rs with
          | Ok programs => Ok (program :: programs)
          | Err err => Err err
          end
    end
  end.

(** How one turn of the query loop ends: [continue] with the new
    [size], or a return from the function. *)
Inductive turn : Type :=
| Continue (size : nat)
| Exit (r : result (list Program)).

(** The body of the [for retries < 10] loop. *)
Definition queryTurn (dirFd : Z) (size : nat) : M turn :=
  (* progIds := make([]uint32, size); &progIds[0] *)
  if Nat.eqb size 0 then panic "index out of range [0] with length 0"
  else
    reply <- (fun h =>
                (Return (progQueryReply (queriesIn h)),
                 h ++ [EvProgQuery (uint32 dirFd) BPF_CGROUP_DEVICE size])) ;;
    let progIds := firstn size (written reply ++ repeat 0%Z size) in
    let cap := size in
    let size := ProgCnt reply in
    if negb (errno reply =? 0)%Z then
      if (errno reply =? ENOSPC)%Z then ret (Continue size)
      else ret (Exit (Err (ErrWrap "bpf_prog_query(BPF_CGROUP_DEVICE) failed"
                                   (ErrErrno (errno reply)))))
    else
      (* progIds = progIds[:size] *)
      if (cap <? size)%nat then panic "slice bounds out of range"
      else
        r <- programsFromIDs (firstn size progIds) ;;
        ret (Exit r).

Equations? queryLoop (dirFd : Z) (size : nat) (retries : Z) (h : History)
  : outcome (result (list Program)) * History
  by wf (Z.to_nat (10 - retries)) lt :=
  queryLoop dirFd size retries h with Z_lt_dec retries 10 := {
    | right _ :=
        (Return (Err (ErrNew
           "could not get complete list of CGROUP_DEVICE programs")), h)
    | left _ with queryTurn dirFd size h := {
        | (Return (Continue size'), h') :=
            queryLoop dirFd size' (retries + 1) h'
        | (Return (Exit r), h') := (Return r, h')
        | (Panic reason, h') := (Panic reason, h') } }.
Proof. lia. Qed.

Definition findAttachedCgroupDeviceFilters (dirFd : Z)
  : M (result (list Program)) :=
  (* Currently you can only have 64 eBPF programs attached to a cgroup. *)
  let size := 64%nat in
  let retries := 0%Z in
  queryLoop dirFd size retries.

(** The revert action [LoadAttachCgroupDeviceFilter] hands back: the
    function [nilCloser], or the closure [closer] over [dirFd] and the
    new program. *)
Inductive Closer : Type :=
| nilCloser
| closer (dirFd : Z) (prog : Program).

(** Calling the revert action. *)
Definition runCloser (c : Closer) : M (option error) :=
  match c with
  | nilCloser => ret None
  | closer dirFd prog =>
    let opts := mkRawDetach dirFd prog AttachCGroupDevice in
    err <- call (EvRawDetachProgram opts) (fun h => RawDetachProgram h opts) ;;
    match err with
    | Err err =>
      ret (Some (ErrWrap
             "failed to call BPF_PROG_DETACH (BPF_CGROUP_DEVICE)" err))
    | Ok _ => ret None
    end
  end.

(** The loop that detaches the old programs. *)
Fixpoint detachOldProgs (dirFd : Z) (oldProgs : list Program)
  : M (option error) :=
  match oldProgs with
  | [] => ret None
  | oldProg :: rest =>
    let opts := mkRawDetach dirFd oldProg AttachCGroupDevice in
    err <- call (EvRawDetachProgram opts) (fun h => RawDetachProgram h opts) ;;
    match err with
    | Err err =>
      ret (Some (ErrWrap
             "failed to call BPF_PROG_DETACH (BPF_CGROUP_DEVICE) on old filter program"
             err))
    | Ok _ => detachOldProgs dirFd rest
    end
  end.

Definition LoadAttachCgroupDeviceFilter
           (insts : Instructions) (license : string) (dirFd : Z)
  : M (Closer * option error) :=
  call (EvSetrlimit RLIMIT_MEMLOCK RLIM_INFINITY RLIM_INFINITY)
       (fun _ => tt) ;;
  r <- findAttachedCgroupDeviceFilters dirFd ;;
  match r with
  | Err err => ret (nilCloser, Some err)
  | Ok oldProgs =>
    let spec := mkProgramSpec CGroupDevice insts license in
    r <- call (EvNewProgram spec) (fun h => NewProgram h spec) ;;
    match r with
    | Err err => ret (nilCloser, Some err)
    | Ok prog =>
      let replaceProg : option Program :=
        if Nat.eqb (length oldProgs) 1 then head oldProgs else None in
      let opts :=
        mkRawAttach dirFd prog replaceProg AttachCGroupDevice
                    BPF_F_ALLOW_MULTI in
      err <- call (EvRawAttachProgram opts)
                  (fun h => RawAttachProgram h opts) ;;
      match err with
      | Err err =>
        ret (nilCloser,
             Some (ErrWrap
               "failed to call BPF_PROG_ATTACH (BPF_CGROUP_DEVICE, BPF_F_ALLOW_MULTI)"
               err))
      | Ok _ =>
        let closer := closer dirFd prog in
        if (1 <? length oldProgs)%nat then
          call (EvWarnf
                  "found more than one filter (%d) attached to a cgroup -- removing extra filters!"
                  (length oldProgs))
               (fun _ => tt) ;;
          err <- detachOldProgs dirFd oldProgs ;;
          ret (closer, err)
        else ret (closer, None)
      end
    end
  end.

End Model.
End Ebpf.

(** ** Vocabulary of the statements *)

Module Vocabulary.
Import Go Systemd.

(** The property names [genV1ResourcesProperties] emits itself. *)
Definition translatorNames : list string :=
  ["MemoryLimit"; "CPUShares"; "BlockIOWeight"; "TasksMax"].

(** The values a property list carries under one name, in order. *)
Definition emitted (name : string) (ps : list Property) : list Variant :=
  map Value (filter (fun p => Name p = name) ps).

(** A property list emits [name] when it has a property of that name. *)
Definition emits (name : string) (ps : list Property) : Prop :=
  exists p, p ∈ ps /\ Name p = name.

(** A list that has none of the translator's own names. *)
Definition foreign (ps : list Property) : Prop :=
  Forall (fun p => Name p ∉ translatorNames) ps.

Section Helpers.
Context {DeviceRule dbusConnManager Stats : Type}.
Context (X : @Externals DeviceRule dbusConnManager Stats).

(** The helpers of the translator add properties of their own names
    only, at the end of the list they are given. *)
Definition helpersKeepToTheirNames : Prop :=
  (forall ds ps, generateDeviceProperties ds = Ok ps -> foreign ps)
  /\ (forall cm ps quota period,
         exists extra,
           addCpuQuota cm ps quota period = ps ++ extra /\ foreign extra)
  /\ (forall cm ps cpus mems ps',
         addCpuset cm ps cpus mems = (ps', None) ->
         exists extra, ps' = ps ++ extra /\ foreign extra).
End Helpers.

(** Calls that make a cgroup directory or put a process into one. *)
Definition createsOrEnrolls
           {DeviceRule : Type} (e : @Event DeviceRule) : bool :=
  match e with
  | EvMkdirAll _ _ | EvWriteCgroupProc _ _ | EvCpusetApplyDir _ _ _
  | EvEnterPid _ _ => true
  | _ => false
  end.

(** Operations on the manager's mutex. *)
Definition isLockOp {DeviceRule : Type} (e : @Event DeviceRule) : bool :=
  match e with
  | EvLock | EvUnlock => true
  | _ => false
  end.

(** Calls to the unit manager. *)
Definition isUnitManagerCall
           {DeviceRule : Type} (e : @Event DeviceRule) : bool :=
  match e with
  | EvStartUnit _ _ | EvStopUnit _ | EvSetUnitProperties _ _ => true
  | _ => false
  end.

(** What [Destroy] answers from the two collaborators' answers: the stop
    error if there is one, else the cleanup error if there is one. *)
Definition destroyAnswer (stopErr cleanupErr : result unit) : result unit :=
  match stopErr, cleanupErr with
  | Err e, _ => Err e
  | Ok _, Err e => Err e
  | Ok _, Ok _ => Ok tt
  end.

Section Traces.
Context {DeviceRule dbusConnManager : Type}.
Implicit Types s : @State DeviceRule dbusConnManager.

(** The state [s'] continues [s] by calls that are all [allowed]. *)
Definition extends (allowed : @Event DeviceRule -> bool) s s' : Prop :=
  exists new,
    trace s' = trace s ++ new /\ Forall (fun e => allowed e = true) new.

(** A computation that issues [allowed] calls only. *)
Definition issuesOnly (allowed : @Event DeviceRule -> bool) {A}
           (c : @M DeviceRule dbusConnManager A) : Prop :=
  forall s, extends allowed s (snd (c s)).

(** A computation that leaves the manager object as it is. *)
Definition keepsManager {A} (c : @M DeviceRule dbusConnManager A) : Prop :=
  forall s, mgr (snd (c s)) = mgr s.

Definition notLockOp (e : @Event DeviceRule) : bool := negb (isLockOp e).

Definition notCreating (e : @Event DeviceRule) : bool :=
  negb (createsOrEnrolls e).

(** The two look-ups a path resolution makes. *)
Definition isLookup (e : @Event DeviceRule) : bool :=
  match e with
  | EvFindCgroupMountpoint _ _ | EvGetInitCgroup _ => true
  | _ => false
  end.

(** From [s] to [s'] the mutex is taken first, released last and not
    touched in between. *)
Definition holdsLock s s' : Prop :=
  exists mid,
    trace s' = trace s ++ [EvLock] ++ mid ++ [EvUnlock]
    /\ Forall (fun e => notLockOp e = true) mid.

(** The freezer state [Set] goes back to. *)
Definition restoreTarget (st : FreezerState) : FreezerState :=
  match st with
  | Undefined => Thawed
  | st => st
  end.
End Traces.

End Vocabulary.

(** ** Concrete collaborators, for running the model *)

Module Scenario.
Import Go Systemd.

(** What the scripted collaborators answer; every answer is the same
    whatever happened before. *)
Record Script : Type := mkScript {
  onStartUnit : result unit;
  onStopUnit : result unit;
  onSetUnitProperties : result unit;
  onRemovePaths : result unit;
  onDeviceRules : result (list Property);
  onCpuset : option error;
  onParseCgroupFile : result (gmap string string);
  onMountpoint : string -> result string;
  onFreezerGetState : result FreezerState;
  onSubsystemSet : subsystem -> result unit
}.

Definition scripted (sc : Script) : @Externals string unit nat :=
  {| newDbusConnManager := fun _ => tt;
     getUnitName := fun c => String.append (CgName c) ".scope";
     ExpandSlice := fun s => Ok s;
     generateDeviceProperties := fun _ => onDeviceRules sc;
     addCpuQuota := fun _ ps quota period =>
       if (period =? 0)%Z then ps
       else ps ++ [newProp "CPUQuotaPeriodUSec" (VUint64 period)];
     addCpuset := fun _ ps cpus mems =>
       match onCpuset sc with
       | Some e => (ps, Some e)
       | None =>
         if String.eqb cpus "" then (ps, None)
         else (ps ++ [newProp "AllowedCPUs" (VString cpus)], None)
       end;
     startUnit := fun _ _ _ _ => onStartUnit sc;
     stopUnit := fun _ _ _ => onStopUnit sc;
     setUnitProperties := fun _ _ _ _ => onSetUnitProperties sc;
     ErrV1NoUnified :=
       ErrNew "invalid configuration: cannot use unified on cgroup v1";
     IsNotFound := fun e =>
       match e with ErrNew "mountpoint not found" => true | _ => false end;
     NewStats := 0;
     ParseCgroupFile := fun _ _ => onParseCgroupFile sc;
     EnterPid := fun _ _ _ => Ok tt;
     RemovePaths := fun _ ps =>
       match onRemovePaths sc with
       | Ok _ => (∅, Ok tt)
       | Err e => (ps, Err e)
       end;
     FindCgroupMountpoint := fun _ _ subsys => onMountpoint sc subsys;
     GetInitCgroup := fun _ _ => Ok "/";
     WriteCgroupProc := fun _ _ _ => Ok tt;
     cgroupsGetPids := fun _ _ => Ok [];
     cgroupsGetAllPids := fun _ _ => Ok [];
     CpusetApplyDir := fun _ _ _ _ => Ok tt;
     SubsystemSet := fun _ sys _ _ => onSubsystemSet sc sys;
     SubsystemGetStats := fun _ _ _ st => (S st, Ok tt);
     FreezerGetState := fun _ _ => onFreezerGetState sc;
     MkdirAll := fun _ _ _ => Ok tt;
     filepath_Clean := fun s => s;
     filepath_Join := fun l => String.concat "/" l |}.

(** A host where every call succeeds. *)
Definition calm : Script :=
  mkScript (Ok tt) (Ok tt) (Ok tt) (Ok tt) (Ok []) None
           (Ok {[ "memory" := "/" ; "devices" := "/" ]})
           (fun subsys => Ok (String.append "/sys/fs/cgroup/" subsys))
           (Ok Thawed) (fun _ => Ok tt).

Definition someResources : @Resources string :=
  mkResources [] 1024 0 0 0 10 (-1) "" "" Undefined None.

(** A config for a unit this manager creates itself. *)
Definition managedConfig : @Cgroup string :=
  mkCgroup "ctr" "" "" None someResources false [].

(** A config that brings its own cgroup paths. *)
Definition joinedConfig : @Cgroup string :=
  mkCgroup "ctr" "" ""
           (Some {[ "memory" := "/sys/fs/cgroup/memory/ext" ;
                    "cpu" := "/sys/fs/cgroup/cpu/ext" ]})
           someResources false [].

(** A host that has no devices hierarchy mounted. *)
Definition noDevicesHost : Script :=
  mkScript (Ok tt) (Ok tt) (Ok tt) (Ok tt) (Ok []) None
           (Ok {[ "memory" := "/" ]})
           (fun subsys =>
              if String.eqb subsys "devices"
              then Err (ErrNew "mountpoint not found")
              else Ok (String.append "/sys/fs/cgroup/" subsys))
           (Ok Thawed) (fun _ => Ok tt).

(** A host whose device rules do not translate. *)
Definition badRulesHost : Script :=
  mkScript (Ok tt) (Ok tt) (Ok tt) (Ok tt)
           (Err (ErrNew "invalid device rule")) None
           (Ok ∅) (fun subsys => Ok (String.append "/sys/fs/cgroup/" subsys))
           (Ok Thawed) (fun _ => Ok tt).

(** A host where the unit does not stop and the paths are not removed. *)
Definition stuckHost : Script :=
  mkScript (Ok tt) (Err (ErrNew "stop failed")) (Ok tt)
           (Err (ErrNew "cleanup failed")) (Ok []) None
           (Ok ∅) (fun _ => Ok "/sys/fs/cgroup") (Ok Thawed)
           (fun _ => Ok tt).

Definition unifiedResources : @Resources string :=
  mkResources [] 1024 0 0 0 10 (-1) "" "" Undefined
              (Some {[ "memory.high" := "1000" ]}).

(** A config that brings its own paths and a unified-resource value. *)
Definition joinedUnifiedConfig : @Cgroup string :=
  mkCgroup "ctr" "" ""
           (Some {[ "memory" := "/sys/fs/cgroup/memory/ext" ;
                    "cpu" := "/sys/fs/cgroup/cpu/ext" ]})
           unifiedResources false [].

(** A config of a unit whose device rules are not enforced. *)
Definition skippedConfig : @Cgroup string :=
  mkCgroup "ctr" "" "" None someResources true [].

(** A path table without a freezer directory. *)
Definition frozenlessPaths : gmap string string :=
  {[ "devices" := "/sys/fs/cgroup/devices/system.slice/ctr.scope" ;
     "memory" := "/sys/fs/cgroup/memory/system.slice/ctr.scope" ]}.

(** The path table of a unit with a devices and a freezer directory. *)
Definition unitPaths : gmap string string :=
  {[ "devices" := "/sys/fs/cgroup/devices/system.slice/ctr.scope" ;
     "freezer" := "/sys/fs/cgroup/freezer/system.slice/ctr.scope" ]}.

Definition stateOf (c : @Cgroup string) (ps : gmap string string)
  : @State string unit :=
  mkState (mkLegacyManager c ps tt) [].

End Scenario.

(** ** Vocabulary and concrete kernels for the device filter *)

Module FilterVocabulary.
Import Go Ebpf.

Section Enumeration.
Context {Program Instructions : Type}.
Context {K : @Kernel Program Instructions}.

(** The buffer length the loop offers to its [j]-th query (from 0) when
    every query before was answered "no space": 64 at first, then the
    count the answer before reported.  [base] is the number of queries
    issued before the loop starts. *)
Definition offered (base j : nat) : nat :=
  match j with
  | O => 64
  | S i => ProgCnt (progQueryReply (base + i))
  end.

(** One BPF_PROG_QUERY on [dirFd] with a buffer of [size] ids. *)
Definition queryEvent (dirFd : Z) (size : nat) : @Event Program Instructions :=
  EvProgQuery (uint32 dirFd) BPF_CGROUP_DEVICE size.

(** The first [n] queries of the loop on [dirFd]. *)
Definition queryEvents (dirFd : Z) (base n : nat)
  : list (@Event Program Instructions) :=
  map (fun j => queryEvent dirFd (offered base j)) (seq 0 n).

(** The kernel answers the first [k] queries with "no space" and a count
    that is not zero. *)
Definition noSpaceTimes (base k : nat) : Prop :=
  forall i, (i < k)%nat ->
    errno (progQueryReply (base + i)) = ENOSPC
    /\ ProgCnt (progQueryReply (base + i)) <> O.

(** The ids [progIds[:size]] after a query with a buffer of [cap] ids. *)
Definition reportedIds (reply : QueryReply) (cap : nat) : list Z :=
  firstn (ProgCnt reply) (firstn cap (written reply ++ repeat 0%Z cap)).

Definition fetchEvents (ids : list Z) : list (@Event Program Instructions) :=
  map EvNewProgramFromID ids.

(** The program to replace: the old one when there is exactly one. *)
Definition replaceTarget (oldProgs : list Program) : option Program :=
  match oldProgs with
  | [p] => Some p
  | _ => None
  end.

Definition detachOpts (dirFd : Z) (p : Program)
  : @RawDetachProgramOptions Program :=
  mkRawDetach dirFd p AttachCGroupDevice.

Definition detachEvents (dirFd : Z) (progs : list Program)
  : list (@Event Program Instructions) :=
  map (fun p => EvRawDetachProgram (detachOpts dirFd p)) progs.

(** The calls of the enumeration: queries and id look-ups. *)
Definition isEnumerationEvent (e : @Event Program Instructions) : bool :=
  match e with
  | EvProgQuery _ _ _ | EvNewProgramFromID _ => true
  | _ => false
  end.

(** The calls that take something away from the cgroup or report it. *)
Definition isDetachOrWarn (e : @Event Program Instructions) : bool :=
  match e with
  | EvRawDetachProgram _ | EvWarnf _ _ => true
  | _ => false
  end.

End Enumeration.
End FilterVocabulary.

Module FilterScenario.
Import Go Ebpf.

(** A kernel that answers the queries from a list (and with success and no
    program once the list is used up), resolves the ids by [resolve], and
    lets a detach fail for the programs [failing] names. *)
Definition scriptedKernel (replies : list QueryReply)
           (resolve : Z -> result Z) (failing : Z -> option error)
  : @Kernel Z (list Z) :=
  {| progQueryReply := fun n => nth n replies (mkQueryReply 0 0 []);
     NewProgramFromID := fun _ id => resolve id;
     NewProgram := fun _ _ => Ok 1000%Z;
     RawAttachProgram := fun _ _ => Ok tt;
     RawDetachProgram := fun _ opts =>
       match failing (DetachProgram opts) with
       | Some e => Err e
       | None => Ok tt
       end |}.

Definition noSpace (cnt : nat) : QueryReply := mkQueryReply ENOSPC cnt [].

Definition found (ids : list Z) : QueryReply :=
  mkQueryReply 0 (length ids) ids.

End FilterScenario.

(** ** Vocabulary for the traces of the manager's loops *)

Module LoopVocabulary.
Import Go Systemd.

Section Tracked.
Context {DeviceRule dbusConnManager : Type}.
Implicit Types m : @legacyManager DeviceRule dbusConnManager.

(** The subsystems of a list that have an entry in the path table, each
    with its path, in the order of the list. *)
Definition tracked m (subsystems : list subsystem)
  : list (subsystem * string) :=
  omap (fun sys =>
          match paths m !! subsystemName sys with
          | Some path => Some (sys, path)
          | None => None
          end) subsystems.



Definition statsEvents (l : list (subsystem * string))
  : list (@Event DeviceRule) :=
  map (fun sp => EvSubsystemGetStats sp.1 sp.2) l.

(** The tracked subsystems whose path is not the empty string. *)
Definition withStats m (subsystems : list subsystem)
  : list (subsystem * string) :=
  List.filter (fun sp => negb (String.eqb sp.2 "")) (tracked m subsystems).

(** What [joinCgroups] calls for one subsystem when nothing fails. *)
Definition joinBlock m (pid : Z) (sys : subsystem) : list (@Event DeviceRule) :=
  let name := subsystemName sys in
  if String.eqb name "name=systemd" then []
  else
    match paths m !! name with
    | None => []
    | Some path =>
      if String.eqb name "cpuset"
      then [EvCpusetApplyDir path (CgResources (cgroups m)) pid]
      else [EvMkdirAll path 493; EvWriteCgroupProc path pid]
    end.

(** [l] is the start of [full]. *)
Definition startOf {A} (l full : list A) : Prop := exists rest, full = l ++ rest.

End Tracked.

Section Collected.
Context {DeviceRule dbusConnManager Stats : Type}.
Context {X : @Externals DeviceRule dbusConnManager Stats}.

(** The aggregate after the collectors of [l] have filled it one after
    the other, the first of them called at history [h]. *)
Fixpoint statsAfter (h : @History DeviceRule) (stats : Stats)
         (l : list (subsystem * string)) : Stats :=
  match l with
  | [] => stats
  | sp :: rest =>
    statsAfter (h ++ [EvSubsystemGetStats sp.1 sp.2])
               (fst (SubsystemGetStats h sp.1 sp.2 stats)) rest
  end.

(** Each collector of [l], called in turn from history [h], answers
    without an error. *)
Fixpoint collectorsAnswer (h : @History DeviceRule) (stats : Stats)
         (l : list (subsystem * string)) : Prop :=
  match l with
  | [] => True
  | sp :: rest =>
    snd (SubsystemGetStats h sp.1 sp.2 stats) = Ok tt
    /\ collectorsAnswer (h ++ [EvSubsystemGetStats sp.1 sp.2])
                        (fst (SubsystemGetStats h sp.1 sp.2 stats)) rest
  end.

End Collected.
End LoopVocabulary.

(** ** Properties of the legacy manager *)

Section LegacyManager.
Import Go Systemd Vocabulary.
Context {DeviceRule dbusConnManager Stats : Type}.
Context {X : @Externals DeviceRule dbusConnManager Stats}.

Implicit Types s : @State DeviceRule dbusConnManager.

(** C10. [GetPids] and [GetAllPids] look the processes up under the
    "devices" path only: on a manager whose path table has no "devices"
    entry both return [errSubsystemDoesNotExist] and call nothing,
    whatever other paths the table holds. *)
Theorem GetPids_GetAllPids_need_devices_path s :
  paths (mgr s) !! "devices" = None ->
  GetPids s = (Err errSubsystemDoesNotExist, s)
  /\ GetAllPids s = (Err errSubsystemDoesNotExist, s).
Proof.
  intros Hdev.
  unfold GetPids, GetAllPids, bind, getMgr, fail.
  rewrite Hdev. split; reflexivity.
Qed.

Lemma Destroy_managed s :
  Paths (cgroups (mgr s)) = None ->
  let m := mgr s in
  let unitName := getUnitName (cgroups m) in
  let h1 := trace s ++ [EvLock] in
  let h2 := h1 ++ [EvStopUnit unitName] in
  Destroy s =
  (destroyAnswer (stopUnit h1 (dbus m) unitName)
                 (snd (RemovePaths h2 (paths m))),
   mkState (mkLegacyManager (cgroups m) (fst (RemovePaths h2 (paths m)))
                            (dbus m))
           (h2 ++ [EvRemovePaths (paths m)] ++ [EvUnlock])).
Proof.
  intros Hp m unitName h1 h2.
  unfold Destroy, bind, getMgr, locked, attempt, call, callRemovePaths,
    fromResult, fail.
  rewrite Hp. cbn.
  fold m. fold unitName. fold h1. fold h2.
  destruct (RemovePaths h2 (paths m)) as [left r] eqn:Hrm. cbn.
  destruct r as [[]|e2], (stopUnit h1 (dbus m) unitName) as [[]|e1]; cbn;
    rewrite <- ?app_assoc; reflexivity.
Qed.

(** C1, as the code has it.  On a manager not built from supplied paths
    [Destroy] stops the unit and then removes the tracked paths, whatever
    the stop answered.  When both fail it returns the STOP error; when
    one of them fails, that error; when none fails, no error. *)
Theorem Destroy_prefers_stop_error s :
  Paths (cgroups (mgr s)) = None ->
  let m := mgr s in
  let unitName := getUnitName (cgroups m) in
  let h1 := trace s ++ [EvLock] in
  let h2 := h1 ++ [EvStopUnit unitName] in
  let stopErr := stopUnit h1 (dbus m) unitName in
  let cleanupErr := snd (RemovePaths h2 (paths m)) in
  trace (snd (Destroy s))
  = trace s ++ [EvLock; EvStopUnit unitName; EvRemovePaths (paths m); EvUnlock]
  /\ (forall e1 e2, stopErr = Err e1 -> cleanupErr = Err e2 ->
                    fst (Destroy s) = Err e1)
  /\ (forall e1, stopErr = Err e1 -> cleanupErr = Ok tt ->
                 fst (Destroy s) = Err e1)
  /\ (forall e2, stopErr = Ok tt -> cleanupErr = Err e2 ->
                 fst (Destroy s) = Err e2)
  /\ (stopErr = Ok tt -> cleanupErr = Ok tt -> fst (Destroy s) = Ok tt).
Proof.
  intros Hp m unitName h1 h2 stopErr cleanupErr.
  rewrite (Destroy_managed s Hp). cbn.
  fold m unitName h1 h2 stopErr cleanupErr.
  split.
  { unfold h2, h1. rewrite <- !app_assoc. reflexivity. }
  repeat split; intros; unfold destroyAnswer;
    repeat match goal with H : _ = _ |- _ => rewrite H end; reflexivity.
Qed.

(** *** The translator *)

Lemma emitted_app name (ps qs : list Property) :
  emitted name (ps ++ qs) = emitted name ps ++ emitted name qs.
Proof. unfold emitted. rewrite filter_app, map_app. reflexivity. Qed.

Lemma emitted_foreign name (ps : list Property) :
  name ∈ translatorNames -> foreign ps -> emitted name ps = [].
Proof.
  intros Hin Hf. unfold emitted.
  induction Hf as [|p ps Hp _ IH]; [reflexivity|].
  rewrite filter_cons. destruct (decide (Name p = name)) as [<-|]; [|exact IH].
  contradiction.
Qed.

Lemma emits_emitted name (ps : list Property) :
  emits name ps <-> emitted name ps <> [].
Proof.
  unfold emits, emitted. split.
  - intros (p & Hin & Hn) Hnil.
    assert (Hp : p ∈ filter (fun p => Name p = name) ps)
      by (apply list_elem_of_filter; split; assumption).
    destruct (filter (fun p => Name p = name) ps); [|discriminate].
    inversion Hp.
  - intros Hne.
    destruct (filter (fun p => Name p = name) ps) as [|p l] eqn:Hf;
      [contradiction|].
    assert (Hp : p ∈ filter (fun p => Name p = name) ps)
      by (rewrite Hf; left).
    apply list_elem_of_filter in Hp as [Hn Hin]. eauto.
Qed.

(** The list the translator returns: the helpers' properties around the
    four of its own, each present or absent by its condition. *)
Lemma genV1ResourcesProperties_layout r cm props :
  helpersKeepToTheirNames X ->
  genV1ResourcesProperties r cm = (props, None) ->
  exists dev quota cpuset,
    foreign dev /\ foreign quota /\ foreign cpuset
    /\ props =
       dev
       ++ (if (Memory r =? 0)%Z then []
           else [newProp "MemoryLimit" (VUint64 (uint64 (Memory r)))])
       ++ (if (CpuShares r =? 0)%Z then []
           else [newProp "CPUShares" (VUint64 (CpuShares r))])
       ++ quota
       ++ (if (BlkioWeight r =? 0)%Z then []
           else [newProp "BlockIOWeight" (VUint64 (uint64 (BlkioWeight r)))])
       ++ (if (0 <? PidsLimit r)%Z || (PidsLimit r =? -1)%Z
           then [newProp "TasksMax" (VUint64 (uint64 (PidsLimit r)))]
           else [])
       ++ cpuset.
Proof.
  intros (Hdev & Hquota & Hcpuset) Hok.
  unfold genV1ResourcesProperties in Hok.
  destruct (generateDeviceProperties (Devices r)) as [dev|e] eqn:Hd;
    [|discriminate].
  specialize (Hdev _ _ Hd).
  match type of Hok with
  | context [addCpuQuota cm ?ps ?q ?p] =>
    destruct (Hquota cm ps q p) as (quota & Hq & Hfq); rewrite Hq in Hok
  end.
  match type of Hok with
  | context [addCpuset cm ?ps ?c ?m] =>
    destruct (addCpuset cm ps c m) as [ps' [e|]] eqn:Hc; [discriminate|];
      destruct (Hcpuset _ _ _ _ _ Hc) as (cpuset & -> & Hfc)
  end.
  exists dev, quota, cpuset. repeat split; try assumption.
  inversion Hok; subst props; clear Hok.
  destruct (Memory r =? 0)%Z, (CpuShares r =? 0)%Z, (BlkioWeight r =? 0)%Z,
    ((0 <? PidsLimit r)%Z || (PidsLimit r =? -1)%Z);
    cbn [negb app]; rewrite <- ?app_assoc, ?app_nil_r; reflexivity.
Qed.

(** The values the returned list carries under the translator's own four
    names. *)
Lemma genV1ResourcesProperties_emitted r cm props :
  helpersKeepToTheirNames X ->
  genV1ResourcesProperties r cm = (props, None) ->
  emitted "MemoryLimit" props
  = (if (Memory r =? 0)%Z then [] else [VUint64 (uint64 (Memory r))])
  /\ emitted "CPUShares" props
     = (if (CpuShares r =? 0)%Z then [] else [VUint64 (CpuShares r)])
  /\ emitted "BlockIOWeight" props
     = (if (BlkioWeight r =? 0)%Z then []
        else [VUint64 (uint64 (BlkioWeight r))])
  /\ emitted "TasksMax" props
     = (if (0 <? PidsLimit r)%Z || (PidsLimit r =? -1)%Z
        then [VUint64 (uint64 (PidsLimit r))] else []).
Proof.
  intros HX Hok.
  destruct (genV1ResourcesProperties_layout r cm props HX Hok)
    as (dev & quota & cpuset & Hfd & Hfq & Hfc & ->).
  assert (Hnames : forall n, n ∈ translatorNames ->
            emitted n dev = [] /\ emitted n quota = [] /\ emitted n cpuset = [])
    by (intros n Hn; repeat split; apply emitted_foreign; assumption).
  repeat split; rewrite !emitted_app;
    match goal with
    | |- context [emitted ?n dev] =>
      destruct (Hnames n) as (-> & -> & ->);
        [unfold translatorNames; rewrite !elem_of_cons; tauto|]
    end;
    destruct (Memory r =? 0)%Z, (CpuShares r =? 0)%Z, (BlkioWeight r =? 0)%Z,
      ((0 <? PidsLimit r)%Z || (PidsLimit r =? -1)%Z); reflexivity.
Qed.

(** C5. On every Resources value the translator accepts, and with
    helpers that add only properties of their own names, the returned
    list has the memory-limit property iff [Memory] is not zero, the
    cpu-shares property iff [CpuShares] is not zero, the blkio-weight
    property iff [BlkioWeight] is not zero, and TasksMax iff [PidsLimit]
    is positive or -1; so never for zero. *)
Theorem genV1ResourcesProperties_zero_value_semantics r cm props :
  helpersKeepToTheirNames X ->
  genV1ResourcesProperties r cm = (props, None) ->
  (emits "MemoryLimit" props <-> Memory r <> 0%Z)
  /\ (emits "CPUShares" props <-> CpuShares r <> 0%Z)
  /\ (emits "BlockIOWeight" props <-> BlkioWeight r <> 0%Z)
  /\ (emits "TasksMax" props <-> (0 < PidsLimit r)%Z \/ PidsLimit r = (-1)%Z)
  /\ (PidsLimit r = 0%Z -> ~ emits "TasksMax" props).
Proof.
  intros HX Hok.
  destruct (genV1ResourcesProperties_emitted r cm props HX Hok)
    as (Hm & Hc & Hb & Hp).
  rewrite !emits_emitted, Hm, Hc, Hb, Hp.
  destruct (Z.eqb_spec (Memory r) 0), (Z.eqb_spec (CpuShares r) 0),
    (Z.eqb_spec (BlkioWeight r) 0), (Z.ltb_spec 0 (PidsLimit r)),
    (Z.eqb_spec (PidsLimit r) (-1)); cbn [orb];
    repeat split; intros; try congruence; try lia; try discriminate;
    intuition (try congruence; try lia).
Qed.

(** C7. When the device rules do not translate, or the cpuset lists do
    not, the translator returns the error with the nil list, never a
    partial one; and [Set], on a manager of its own unit and a Resources
    value without unified entries, returns that error with the manager
    and the history of calls as they were: nothing has been called. *)
Theorem translation_error_leaves_nothing r cm :
  (exists e, generateDeviceProperties (Devices r) = Err e)
  \/ (exists e, forall ps,
         snd (addCpuset cm ps (CpusetCpus r) (CpusetMems r)) = Some e) ->
  exists err,
    genV1ResourcesProperties r cm = ([], Some err)
    /\ forall s ref,
         Paths (cgroups (mgr s)) = None ->
         dbus (mgr s) = cm ->
         deref ref s = (Ok r, s) ->
         Unified r = None ->
         Set_ ref s = (Err err, s).
Proof.
  intros Hfail.
  assert (Hgen : exists err, genV1ResourcesProperties r cm = ([], Some err)).
  { unfold genV1ResourcesProperties.
    destruct (generateDeviceProperties (Devices r)) as [dev|e0] eqn:Hd.
    - destruct Hfail as [[e He]|[e He]]; [discriminate|].
      match goal with
      | |- context [addCpuset cm ?ps ?c ?m] =>
        specialize (He ps); destruct (addCpuset cm ps c m) as [ps' o]
      end.
      cbn in He. subst o. eauto.
    - eauto. }
  destruct Hgen as [err Hgen]. exists err. split; [exact Hgen|].
  intros s ref Hp Hcm Hd Hu.
  unfold Set_, bind, getMgr. rewrite Hp, Hd, Hu, Hcm, Hgen. reflexivity.
Qed.

(** *** Apply on a config that brings its own paths *)

(** C4, as the code has it.  The unified-resource check comes first and
    applies to every config, with or without supplied paths: [Apply]
    returns [ErrV1NoUnified] and does nothing else.  Without a unified
    value, a config that supplies paths makes [Apply] take the lock,
    read the caller's own cgroup file, keep of the supplied paths those
    whose subsystem the file lists, store them and enroll the pid there,
    without any call to the unit manager; when the file cannot be read
    the error is returned and nothing is enrolled. *)
Theorem Apply_with_supplied_paths s pid :
  let m := mgr s in
  let c := cgroups m in
  (forall u, Unified (CgResources c) = Some u ->
             Apply pid s = (Err ErrV1NoUnified, s))
  /\ (forall cPaths,
         Paths c = Some cPaths ->
         Unified (CgResources c) = None ->
         let h1 := trace s ++ [EvLock] in
         let h2 := h1 ++ [EvParseCgroupFile "/proc/self/cgroup"] in
         match ParseCgroupFile h1 "/proc/self/cgroup" with
         | Err e => Apply pid s = (Err e, mkState m (h2 ++ [EvUnlock]))
         | Ok cgMap =>
           exists joined : gmap string string,
             (forall name path,
                 joined !! name = Some path <->
                 cPaths !! name = Some path /\ is_Some (cgMap !! name))
             /\ Apply pid s
                = (EnterPid h2 joined pid,
                   mkState (mkLegacyManager c joined (dbus m))
                           (h2 ++ [EvEnterPid joined pid; EvUnlock]))
         end).
Proof.
  intros m c. split.
  - intros u Hu. unfold Apply, bind, getMgr, fail. cbn.
    fold m. fold c. rewrite Hu. reflexivity.
  - intros cPaths Hp Hu h1 h2.
    unfold Apply, bind, getMgr, locked, call, setPaths. cbn.
    fold m. fold c. rewrite Hu, Hp. cbn. fold h1.
    destruct (ParseCgroupFile h1 "/proc/self/cgroup") as [cgMap|e]; cbn.
    + exists (filter (fun kv => is_Some (cgMap !! kv.1)) cPaths). split.
      * intros name path. apply map_lookup_filter_Some.
      * fold h2. rewrite <- app_assoc. reflexivity.
    + reflexivity.
Qed.

(** *** Which calls a method issues *)

Section Issues.
Context (allowed : @Event DeviceRule -> bool).

Lemma extends_refl s : extends allowed s s.
Proof. exists []. rewrite app_nil_r. split; [reflexivity|constructor]. Qed.

Lemma extends_trans s1 s2 s3 :
  extends allowed s1 s2 -> extends allowed s2 s3 -> extends allowed s1 s3.
Proof.
  intros (n1 & H1 & F1) (n2 & H2 & F2). exists (n1 ++ n2). split.
  - rewrite H2, H1, app_assoc. reflexivity.
  - apply Forall_app. split; assumption.
Qed.

Lemma extends_event s m ev :
  allowed ev = true -> extends allowed s (mkState m (trace s ++ [ev])).
Proof. intros H. exists [ev]. split; [reflexivity|]. repeat constructor. exact H. Qed.

Lemma extends_same_trace s m : extends allowed s (mkState m (trace s)).
Proof. exists []. cbn. rewrite app_nil_r. split; [reflexivity|constructor]. Qed.

Lemma issuesOnly_ret {A} (a : A) :
  issuesOnly allowed (@ret DeviceRule dbusConnManager A a).
Proof. intros s. apply extends_refl. Qed.

Lemma issuesOnly_fail {A} e :
  issuesOnly allowed (@fail DeviceRule dbusConnManager A e).
Proof. intros s. apply extends_refl. Qed.

Lemma issuesOnly_fromResult {A} (r : result A) :
  issuesOnly allowed (@fromResult DeviceRule dbusConnManager A r).
Proof. intros s. apply extends_refl. Qed.

Lemma issuesOnly_getMgr :
  issuesOnly allowed (@getMgr DeviceRule dbusConnManager).
Proof. intros s. apply extends_refl. Qed.

Lemma issuesOnly_setPaths p :
  issuesOnly allowed (@setPaths DeviceRule dbusConnManager p).
Proof. intros s. apply extends_same_trace. Qed.

Lemma issuesOnly_setFreezer st :
  issuesOnly allowed (@setFreezer DeviceRule dbusConnManager st).
Proof. intros s. apply extends_same_trace. Qed.

Lemma issuesOnly_call {A} ev (answer : History -> result A) :
  allowed ev = true ->
  issuesOnly allowed (@call DeviceRule dbusConnManager A ev answer).
Proof. intros H s. apply extends_event, H. Qed.

Lemma issuesOnly_emit ev :
  allowed ev = true -> issuesOnly allowed (@emit DeviceRule dbusConnManager ev).
Proof. intros H s. apply extends_event, H. Qed.

Lemma issuesOnly_bind {A B} (c : @M DeviceRule dbusConnManager A)
      (k : A -> @M DeviceRule dbusConnManager B) :
  issuesOnly allowed c -> (forall a, issuesOnly allowed (k a)) ->
  issuesOnly allowed (bind c k).
Proof.
  intros Hc Hk s. unfold bind. specialize (Hc s).
  destruct (c s) as [[a|e] s']; cbn in *; [|exact Hc].
  eapply extends_trans; [exact Hc|apply Hk].
Qed.

Lemma issuesOnly_attempt {A} (c : @M DeviceRule dbusConnManager A) :
  issuesOnly allowed c -> issuesOnly allowed (attempt c).
Proof.
  intros Hc s. unfold attempt. specialize (Hc s).
  destruct (c s) as [r s']. exact Hc.
Qed.

Lemma issuesOnly_deref r :
  issuesOnly allowed (@deref DeviceRule dbusConnManager r).
Proof.
  unfold deref. apply issuesOnly_bind; [apply issuesOnly_getMgr|].
  intros m. apply issuesOnly_ret.
Qed.

End Issues.

(** Splits a method into its calls; what is left are the side conditions
    on the events and the loops. *)
Ltac issues :=
  repeat
    match goal with
    | |- issuesOnly _ (ret _) => apply issuesOnly_ret
    | |- issuesOnly _ (fail _) => apply issuesOnly_fail
    | |- issuesOnly _ (fromResult _) => apply issuesOnly_fromResult
    | |- issuesOnly _ getMgr => apply issuesOnly_getMgr
    | |- issuesOnly _ (setPaths _) => apply issuesOnly_setPaths
    | |- issuesOnly _ (setFreezer _) => apply issuesOnly_setFreezer
    | |- issuesOnly _ (deref _) => apply issuesOnly_deref
    | |- issuesOnly _ (emit _) => apply issuesOnly_emit; reflexivity
    | |- issuesOnly _ (call _ _) => apply issuesOnly_call; reflexivity
    | |- issuesOnly _ (attempt _) => apply issuesOnly_attempt
    | |- issuesOnly _ (bind _ _) => apply issuesOnly_bind; [|intros ?]
    | H : issuesOnly ?P ?c |- issuesOnly ?P ?c => exact H
    | |- issuesOnly _ (match ?x with _ => _ end) => destruct x
    | |- issuesOnly _ (let _ := _ in _) => cbv zeta
    end.

Lemma Freeze_never_locks st : issuesOnly notLockOp (Freeze st).
Proof. unfold Freeze. issues. Qed.

Lemma GetFreezerState_never_locks : issuesOnly notLockOp GetFreezerState.
Proof. unfold GetFreezerState. issues. Qed.

Lemma setLoop_never_locks r subsystems :
  issuesOnly notLockOp (setLoop r subsystems).
Proof. induction subsystems as [|sys rest IH]; cbn [setLoop]; issues. Qed.

Lemma Set_never_locks r : issuesOnly notLockOp (Set_ r).
Proof.
  unfold Set_. issues;
    first [apply GetFreezerState_never_locks | apply Freeze_never_locks
          | apply setLoop_never_locks].
Qed.

Lemma getSubsystemPath_never_locks c subsys :
  issuesOnly notLockOp (getSubsystemPath c subsys).
Proof. unfold getSubsystemPath. issues. Qed.

Lemma resolvePathsLoop_never_locks subsystems acc :
  issuesOnly notLockOp (resolvePathsLoop subsystems acc).
Proof.
  revert acc. induction subsystems as [|sys rest IH]; intros acc;
    cbn [resolvePathsLoop]; issues;
    first [apply getSubsystemPath_never_locks | apply IH].
Qed.

Lemma joinCgroupsLoop_never_locks pid subsystems :
  issuesOnly notLockOp (joinCgroupsLoop pid subsystems).
Proof. induction subsystems as [|sys rest IH]; cbn [joinCgroupsLoop]; issues. Qed.

Lemma getStatsLoop_never_locks subsystems stats :
  issuesOnly notLockOp (getStatsLoop subsystems stats).
Proof.
  revert stats. induction subsystems as [|sys rest IH]; intros stats;
    cbn [getStatsLoop]; issues; try apply IH.
  intros s. unfold callGetStats.
  destruct (SubsystemGetStats (trace s) sys _ stats) as [stats' r].
  apply extends_event. reflexivity.
Qed.

Lemma bind_getMgr {A} (k : legacyManager -> @M DeviceRule dbusConnManager A) s :
  bind getMgr k s = k (mgr s) s.
Proof. reflexivity. Qed.

Lemma locked_holdsLock {A} (body : @M DeviceRule dbusConnManager A) s :
  issuesOnly notLockOp body -> holdsLock s (snd (locked body s)).
Proof.
  intros Hb. unfold locked.
  specialize (Hb (mkState (mgr s) (trace s ++ [EvLock]))).
  destruct (body _) as [r s']. destruct Hb as (mid & Ht & Hf). cbn in *.
  exists mid. split; [|exact Hf]. rewrite Ht, <- !app_assoc. reflexivity.
Qed.

(** C9, as the code has it.  [Path] and [GetStats] take the manager's lock
    on entry and release it on return.  [Apply] does so once it is past
    the unified-resource rejection, [Destroy] once it is past the check
    for supplied paths; on the early returns neither touches the lock.
    [GetPids], [GetAllPids], [Freeze] and [Set] never touch the lock. *)
Theorem lock_discipline s :
  (forall subsys, holdsLock s (snd (Path subsys s)))
  /\ holdsLock s (snd (GetStats s))
  /\ (forall pid,
         match Unified (CgResources (cgroups (mgr s))) with
         | None => holdsLock s (snd (Apply pid s))
         | Some _ => snd (Apply pid s) = s
         end)
  /\ match Paths (cgroups (mgr s)) with
     | None => holdsLock s (snd (Destroy s))
     | Some _ => snd (Destroy s) = s
     end
  /\ extends notLockOp s (snd (GetPids s))
  /\ extends notLockOp s (snd (GetAllPids s))
  /\ (forall st, extends notLockOp s (snd (Freeze st s)))
  /\ (forall r, extends notLockOp s (snd (Set_ r s))).
Proof.
  repeat split.
  - intros subsys. apply locked_holdsLock. issues.
  - apply locked_holdsLock, getStatsLoop_never_locks.
  - intros pid. unfold Apply. rewrite bind_getMgr.
    destruct (Unified (CgResources (cgroups (mgr s)))); [reflexivity|].
    apply locked_holdsLock.
    issues; unfold joinCgroups;
      first [apply resolvePathsLoop_never_locks
            | apply joinCgroupsLoop_never_locks].
  - unfold Destroy. rewrite bind_getMgr.
    destruct (Paths (cgroups (mgr s))); [reflexivity|].
    apply locked_holdsLock. issues.
    intros s'. unfold callRemovePaths.
    destruct (RemovePaths (trace s') (paths (mgr s'))) as [left r].
    apply extends_event. reflexivity.
  - revert s. change (issuesOnly notLockOp GetPids). unfold GetPids. issues.
  - revert s. change (issuesOnly notLockOp GetAllPids). unfold GetAllPids. issues.
  - intros st. apply Freeze_never_locks.
  - intros r. apply Set_never_locks.
Qed.

(** *** Apply on a host without the devices hierarchy *)

Lemma getSubsystemPath_keeps_manager c subsys s :
  mgr (snd (getSubsystemPath c subsys s)) = mgr s.
Proof.
  unfold getSubsystemPath, bind, call, fromResult, ret. cbn.
  destruct (FindCgroupMountpoint (trace s) "" subsys); cbn; [|reflexivity].
  destruct (GetInitCgroup _ subsys); cbn; [|reflexivity].
  destruct (ExpandSlice _); reflexivity.
Qed.

Lemma getSubsystemPath_not_creating c subsys :
  issuesOnly notCreating (getSubsystemPath c subsys).
Proof. unfold getSubsystemPath. issues. Qed.

Lemma getSubsystemPath_unmounted c subsys e s :
  FindCgroupMountpoint (trace s) "" subsys = Err e ->
  getSubsystemPath c subsys s
  = (Err e, mkState (mgr s) (trace s ++ [EvFindCgroupMountpoint "" subsys])).
Proof.
  intros H. unfold getSubsystemPath, bind, call. cbn. rewrite H. reflexivity.
Qed.

(** The loop stops at the devices subsystem when its path does not
    resolve. *)
Lemma resolvePathsLoop_at_devices rest acc e s :
  FindCgroupMountpoint (trace s) "" "devices" = Err e ->
  resolvePathsLoop (DevicesGroup :: rest) acc s
  = (Err e, mkState (mgr s) (trace s ++ [EvFindCgroupMountpoint "" "devices"])).
Proof.
  intros H. cbn [resolvePathsLoop subsystemName]. rewrite bind_getMgr.
  unfold bind, attempt. rewrite (getSubsystemPath_unmounted _ _ e s H).
  reflexivity.
Qed.

Lemma resolvePathsLoop_without_devices e s :
  (forall h, FindCgroupMountpoint h "" "devices" = Err e) ->
  exists err s',
    resolvePathsLoop legacySubsystems ∅ s = (Err err, s')
    /\ mgr s' = mgr s
    /\ extends notCreating s s'
    /\ (err = e
        \/ fst (getSubsystemPath (cgroups (mgr s)) "cpuset" s) = Err err
           /\ IsNotFound err = false).
Proof.
  intros Hdev. unfold legacySubsystems.
  cbn [resolvePathsLoop subsystemName]. rewrite bind_getMgr.
  unfold bind at 1. unfold attempt at 1.
  pose proof (getSubsystemPath_keeps_manager (cgroups (mgr s)) "cpuset" s) as Hm.
  pose proof (getSubsystemPath_not_creating (cgroups (mgr s)) "cpuset" s) as Hx.
  destruct (getSubsystemPath (cgroups (mgr s)) "cpuset" s) as [r sa].
  cbn [fst snd] in *.
  assert (Hstep : forall acc,
             resolvePathsLoop (DevicesGroup :: skipn 2 legacySubsystems) acc sa
             = (Err e, mkState (mgr sa)
                         (trace sa ++ [EvFindCgroupMountpoint "" "devices"]))
             /\ extends notCreating s
                  (mkState (mgr sa)
                     (trace sa ++ [EvFindCgroupMountpoint "" "devices"]))).
  { intros acc. split; [apply resolvePathsLoop_at_devices, Hdev|].
    eapply extends_trans; [exact Hx|]. apply extends_event. reflexivity. }
  destruct r as [p|err].
  - destruct (Hstep (<["cpuset":=p]> ∅)) as [Heq Hext].
    exists e. eexists. split; [exact Heq|]. cbn. auto.
  - change (String.eqb "cpuset" "devices") with false. cbv iota.
    destruct (IsNotFound err) eqn:Hnf.
    + destruct (Hstep ∅) as [Heq Hext].
      exists e. eexists. split; [exact Heq|]. cbn. auto.
    + exists err, sa. unfold fail. repeat split; auto.
Qed.

(** Without the devices hierarchy [Apply] fails before it makes a
    directory or writes a pid, and says which step the error is from. *)
Lemma Apply_without_devices_quiet s pid e :
  Paths (cgroups (mgr s)) = None ->
  (forall h, FindCgroupMountpoint h "" "devices" = Err e) ->
  is_err (fst (Apply pid s)) = true
  /\ extends notCreating s (snd (Apply pid s))
  /\ mgr (snd (Apply pid s)) = mgr s
  /\ (fst (Apply pid s) = Err e
      \/ fst (Apply pid s) = Err ErrV1NoUnified
      \/ (exists h unitName props err,
             startUnit h (dbus (mgr s)) unitName props = Err err
             /\ fst (Apply pid s) = Err err)
      \/ (exists h err,
             fst (getSubsystemPath (cgroups (mgr s)) "cpuset"
                                   (mkState (mgr s) h)) = Err err
             /\ IsNotFound err = false
             /\ fst (Apply pid s) = Err err)).
Proof.
  intros Hp Hdev.
  assert (H : exists err s',
             Apply pid s = (Err err, s')
             /\ extends notCreating s s'
             /\ mgr s' = mgr s
             /\ (err = e
                 \/ err = ErrV1NoUnified
                 \/ (exists h unitName props,
                        startUnit h (dbus (mgr s)) unitName props = Err err)
                 \/ (exists h,
                        fst (getSubsystemPath (cgroups (mgr s)) "cpuset"
                                              (mkState (mgr s) h)) = Err err
                        /\ IsNotFound err = false))).
  { unfold Apply. rewrite bind_getMgr. cbv zeta.
    destruct (Unified (CgResources (cgroups (mgr s)))) as [u|].
    { exists ErrV1NoUnified, s. repeat split; auto. apply extends_refl. }
    rewrite Hp. unfold locked.
    match goal with
    | |- context [EvStartUnit ?u ?p] =>
      set (props := p); set (unitName := u); clearbody props unitName
    end.
    unfold bind at 1. unfold call at 1. cbn [trace mgr].
    destruct (startUnit (trace s ++ [EvLock]) (dbus (mgr s)) unitName props)
      as [[]|err] eqn:Hstart.
    - unfold bind at 1.
      destruct (resolvePathsLoop_without_devices e
                  (mkState (mgr s)
                     ((trace s ++ [EvLock]) ++ [EvStartUnit unitName props]))
                  Hdev)
        as (err & s' & Heq & Hm & (new & Ht & Hf) & Hor).
      rewrite Heq. cbn [fst snd mgr trace] in *.
      exists err. eexists. split; [reflexivity|]. cbn [mgr trace].
      repeat split; auto.
      + exists ([EvLock; EvStartUnit unitName props] ++ new ++ [EvUnlock]).
        split.
        * rewrite Ht, <- !app_assoc. reflexivity.
        * repeat (apply Forall_cons; split; [reflexivity|]).
          apply Forall_app. split; [exact Hf|]. repeat constructor.
      + destruct Hor as [->|[Hc Hnf]]; [left; reflexivity|].
        right. right. right. eauto.
    - exists err. eexists. split; [reflexivity|]. cbn [mgr trace].
      repeat split; auto.
      + exists [EvLock; EvStartUnit unitName props; EvUnlock]. split.
        * rewrite <- !app_assoc. reflexivity.
        * repeat constructor.
      + right. right. left. eauto. }
  destruct H as (err & s' & Heq & Hext & Hm & Hor). rewrite Heq.
  cbn [fst snd is_err].
  repeat split; auto.
  destruct Hor as [->|[->|[(h & u & p & Hs)|(h & Hc & Hnf)]]].
  - left. reflexivity.
  - right. left. reflexivity.
  - right. right. left. exists h, u, p, err. auto.
  - right. right. right. exists h, err. auto.
Qed.

Lemma getSubsystemPath_only_looks_up c subsys :
  issuesOnly isLookup (getSubsystemPath c subsys).
Proof. unfold getSubsystemPath. issues. Qed.

Lemma resolvePathsLoop_only_looks_up subsystems acc :
  issuesOnly isLookup (resolvePathsLoop subsystems acc).
Proof.
  revert acc. induction subsystems as [|sys rest IH]; intros acc;
    cbn [resolvePathsLoop]; issues;
    first [apply getSubsystemPath_only_looks_up | apply IH].
Qed.

(** What [Apply] has called when the devices path does not resolve: the
    unit start, then look-ups only. *)
Lemma Apply_without_devices_trace s pid e :
  Paths (cgroups (mgr s)) = None ->
  Unified (CgResources (cgroups (mgr s))) = None ->
  (forall h, FindCgroupMountpoint h "" "devices" = Err e) ->
  exists own lookups,
    trace (snd (Apply pid s))
    = trace s
      ++ [EvLock;
          EvStartUnit (getUnitName (cgroups (mgr s)))
                      (own ++ SystemdProps (cgroups (mgr s)))]
      ++ lookups ++ [EvUnlock]
    /\ Forall (fun ev => isLookup ev = true) lookups
    /\ emitted "PIDs" own
       = (if (pid =? -1)%Z then [] else [VUint32s [uint32 pid]]).
Proof.
  intros Hp Hu Hdev. unfold Apply. rewrite bind_getMgr. cbv zeta.
  rewrite Hu, Hp.
  match goal with
  | |- context [EvStartUnit ?u (?o ++ SystemdProps _)] =>
    set (own := o); set (unitName := u)
  end.
  assert (Hpids : emitted "PIDs" own
                  = (if (pid =? -1)%Z then [] else [VUint32s [uint32 pid]])).
  { unfold own.
    destruct (HasSuffix (getUnitName (cgroups (mgr s))) ".slice"),
      (pid =? -1)%Z; reflexivity. }
  clearbody own. exists own.
  unfold locked. unfold bind at 1. unfold call at 1. cbn [trace mgr].
  destruct (startUnit (trace s ++ [EvLock]) (dbus (mgr s)) unitName
                      (own ++ SystemdProps (cgroups (mgr s)))) as [[]|err].
  - unfold bind at 1.
    destruct (resolvePathsLoop_without_devices e
                (mkState (mgr s)
                   ((trace s ++ [EvLock])
                    ++ [EvStartUnit unitName
                          (own ++ SystemdProps (cgroups (mgr s)))]))
                Hdev)
      as (err & s' & Heq & _).
    pose proof (resolvePathsLoop_only_looks_up legacySubsystems ∅
                  (mkState (mgr s)
                     ((trace s ++ [EvLock])
                      ++ [EvStartUnit unitName
                            (own ++ SystemdProps (cgroups (mgr s)))])))
      as (lookups & Ht & Hf).
    rewrite Heq in *. cbn [fst snd mgr trace] in *.
    exists lookups. split; [|split; assumption].
    rewrite Ht, <- !app_assoc. reflexivity.
  - cbn [fst snd mgr trace]. exists []. split; [|split; [constructor|exact Hpids]].
    rewrite <- !app_assoc. reflexivity.
Qed.

(** C8, as the code has it.  On a config without supplied paths and a
    host where the devices hierarchy is not mounted, [Apply] returns an
    error, makes no directory and writes the pid into no cgroup itself (no
    MkdirAll, WriteCgroupProc, ApplyDir or EnterPid call), and leaves the
    manager, its path table too, as it was: directories are made and pids
    written only once every path is resolved.  But the unit is not spared:
    unless a unified value rejects the config at once, the start of the
    unit is the first call after the lock, it carries the pid as its PIDs
    property when the pid is not -1, and nothing but path look-ups
    follows it; the unit is not stopped again.  The error is the one of
    the devices lookup unless an earlier step has failed: the
    unified-resource rejection, the start of the unit, or a cpuset lookup
    failing with something else than not-found. *)
Theorem Apply_without_devices_hierarchy s pid e :
  Paths (cgroups (mgr s)) = None ->
  (forall h, FindCgroupMountpoint h "" "devices" = Err e) ->
  is_err (fst (Apply pid s)) = true
  /\ extends notCreating s (snd (Apply pid s))
  /\ mgr (snd (Apply pid s)) = mgr s
  /\ (fst (Apply pid s) = Err e
      \/ fst (Apply pid s) = Err ErrV1NoUnified
      \/ (exists h unitName props err,
             startUnit h (dbus (mgr s)) unitName props = Err err
             /\ fst (Apply pid s) = Err err)
      \/ (exists h err,
             fst (getSubsystemPath (cgroups (mgr s)) "cpuset"
                                   (mkState (mgr s) h)) = Err err
             /\ IsNotFound err = false
             /\ fst (Apply pid s) = Err err))
  /\ match Unified (CgResources (cgroups (mgr s))) with
     | Some _ => Apply pid s = (Err ErrV1NoUnified, s)
     | None =>
       exists own lookups,
         trace (snd (Apply pid s))
         = trace s
           ++ [EvLock;
               EvStartUnit (getUnitName (cgroups (mgr s)))
                           (own ++ SystemdProps (cgroups (mgr s)))]
           ++ lookups ++ [EvUnlock]
         /\ Forall (fun ev => isLookup ev = true) lookups
         /\ emitted "PIDs" own
            = (if (pid =? -1)%Z then [] else [VUint32s [uint32 pid]])
     end.
Proof.
  intros Hp Hdev.
  destruct (Apply_without_devices_quiet s pid e Hp Hdev)
    as (H1 & H2 & H3 & H4).
  repeat (split; [assumption|]).
  destruct (Unified (CgResources (cgroups (mgr s)))) as [u|] eqn:Hu.
  - unfold Apply. rewrite bind_getMgr, Hu. reflexivity.
  - apply (Apply_without_devices_trace s pid e Hp Hu Hdev).
Qed.

(** *** Set and the freezer *)

Lemma Freeze_without_path st s :
  paths (mgr s) !! "freezer" = None ->
  Freeze st s = (Err errSubsystemDoesNotExist, s).
Proof. intros H. unfold Freeze. rewrite bind_getMgr, H. reflexivity. Qed.

(** With a freezer path, [Freeze] records the wanted state, writes it
    through the freezer controller, and takes the record back when the
    write fails. *)
Lemma Freeze_with_path st path s :
  paths (mgr s) !! "freezer" = Some path ->
  let m := mgr s in
  let c := cgroups m in
  let wanted := withFreezer (CgResources c) st in
  let s' (r : Resources) :=
      mkState (mkLegacyManager (withResources c r) (paths m) (dbus m))
              (trace s ++ [EvSubsystemSet FreezerGroup path wanted]) in
  Freeze st s
  = match SubsystemSet (trace s) FreezerGroup path wanted with
    | Ok _ => (Ok tt, s' wanted)
    | Err e => (Err e, s' (withFreezer (CgResources c) (Freezer (CgResources c))))
    end.
Proof.
  intros H m c wanted s'. unfold Freeze. rewrite bind_getMgr, H.
  unfold bind, setFreezer, getMgr, attempt, call, ret, fail. cbn.
  fold m. fold c. fold wanted.
  destruct (SubsystemSet (trace s) FreezerGroup path wanted) as [[]|e];
    reflexivity.
Qed.

(** C6. On a manager of its own unit, with device rules enforced, a
    Resources value without unified entries that translates, and a freezer
    state that can be read: [Set] reads the state before anything else,
    takes [Thawed] for [Undefined], and calls the unit manager in some
    state [s2] reached without any unit-manager call.  Right after that
    call, whether it failed or not, it runs [Freeze] with the state read:
    with a freezer path this hands the freezer controller the config's
    Resources with the [Freezer] field set to that state and the other
    fields as they were, and when the write succeeds that state is the
    one the config records.  What the restoring [Freeze] answers is dropped: after a
    failed property application [Set] returns that failure, after a
    successful one it goes on with the subsystems. *)
Theorem Set_restores_freezer_state s ref r0 props st :
  Paths (cgroups (mgr s)) = None ->
  SkipDevices (cgroups (mgr s)) = false ->
  deref ref s = (Ok r0, s) ->
  Unified r0 = None ->
  genV1ResourcesProperties r0 (dbus (mgr s)) = (props, None) ->
  fst (GetFreezerState s) = Ok st ->
  let target := restoreTarget st in
  exists s2,
    let unitName := getUnitName (cgroups (mgr s2)) in
    let s3 :=
        mkState (mgr s2) (trace s2 ++ [EvSetUnitProperties unitName props]) in
    let restored := snd (Freeze target s3) in
    (exists mid,
        trace s2 = trace s ++ mid
        /\ Forall (fun e => isUnitManagerCall e = false) mid)
    /\ paths (mgr s2) = paths (mgr s)
    /\ match paths (mgr s) !! "freezer" with
       | Some path =>
         let before := CgResources (cgroups (mgr s)) in
         let written :=
             mkResources (Devices before) (Memory before) (CpuShares before)
                         (CpuQuota before) (CpuPeriod before)
                         (BlkioWeight before) (PidsLimit before)
                         (CpusetCpus before) (CpusetMems before)
                         target (Unified before) in
         FreezerGetState (trace s) path = Ok st
         /\ (exists rest, trace s2 = trace s ++ EvFreezerGetState path :: rest)
         /\ trace restored
            = trace s3 ++ [EvSubsystemSet FreezerGroup path written]
         /\ Freezer written = target
         /\ (SubsystemSet (trace s3) FreezerGroup path written = Ok tt ->
             Freezer (CgResources (cgroups (mgr restored))) = target)
       | None => restored = s3
       end
    /\ match setUnitProperties (trace s2) (dbus (mgr s2)) unitName props with
       | Err e => Set_ ref s = (Err e, restored)
       | Ok _ => Set_ ref s = setLoop ref legacySubsystems restored
       end.
Proof.
  intros Hp Hskip Hd Hu Hgen Hst target.
  assert (Hset :
    exists s2,
      (exists mid,
          trace s2 = trace s ++ mid
          /\ Forall (fun e => isUnitManagerCall e = false) mid)
      /\ paths (mgr s2) = paths (mgr s)
      /\ (forall t, withFreezer (CgResources (cgroups (mgr s2))) t
                    = withFreezer (CgResources (cgroups (mgr s))) t)
      /\ (forall path, paths (mgr s) !! "freezer" = Some path ->
            exists rest, trace s2 = trace s ++ EvFreezerGetState path :: rest)
      /\ Set_ ref s
         = let unitName := getUnitName (cgroups (mgr s2)) in
           let s3 :=
               mkState (mgr s2)
                       (trace s2 ++ [EvSetUnitProperties unitName props]) in
           match setUnitProperties (trace s2) (dbus (mgr s2)) unitName props with
           | Err e => (Err e, snd (Freeze target s3))
           | Ok _ => setLoop ref legacySubsystems (snd (Freeze target s3))
           end).
  { unfold Set_. rewrite bind_getMgr, Hp. unfold bind at 1.
    rewrite Hd, Hu, Hgen, Hskip. cbn [negb].
    match goal with
    | |- context [bind ?pre ?k s] =>
      assert (Hpre :
        exists s2,
          pre s = (Ok target, s2)
          /\ (exists mid,
                 trace s2 = trace s ++ mid
                 /\ Forall (fun e => isUnitManagerCall e = false) mid)
          /\ paths (mgr s2) = paths (mgr s)
          /\ (forall t, withFreezer (CgResources (cgroups (mgr s2))) t
                        = withFreezer (CgResources (cgroups (mgr s))) t)
          /\ (forall path, paths (mgr s) !! "freezer" = Some path ->
                exists rest,
                  trace s2 = trace s ++ EvFreezerGetState path :: rest))
    end.
    { unfold GetFreezerState in *. rewrite bind_getMgr in Hst.
      unfold bind at 1. rewrite bind_getMgr.
      destruct (paths (mgr s) !! "freezer") as [path|] eqn:Hfp.
      - unfold call in *. cbn [fst] in Hst. rewrite Hst.
        unfold bind at 1. unfold attempt at 1.
        rewrite (Freeze_with_path Frozen path
                   (mkState (mgr s) (trace s ++ [EvFreezerGetState path])) Hfp).
        cbn [mgr trace].
        destruct (SubsystemSet _ FreezerGroup path _) as [[]|e];
          unfold bind, ret, emit; cbn [mgr trace paths];
          (eexists; split; [reflexivity|]; cbn [mgr trace paths cgroups];
           split;
           [eexists; split;
            [rewrite <- !app_assoc; reflexivity|repeat constructor]|];
           split; [reflexivity|]; split; [reflexivity|];
           intros path' Hpath'; inversion Hpath'; subst path';
           eexists; rewrite <- !app_assoc; reflexivity).
      - unfold ret in Hst. cbn [fst] in Hst. inversion Hst; subst st.
        unfold ret at 1. unfold bind at 1. unfold attempt at 1.
        rewrite (Freeze_without_path Frozen s Hfp).
        unfold bind, ret, emit; cbn [mgr trace paths].
        eexists; split; [reflexivity|]; cbn [mgr trace paths].
        split; [eexists; split; [reflexivity|repeat constructor]|].
        split; [reflexivity|]. split; [reflexivity|]. discriminate. }
    destruct Hpre as (s2 & Hpre & Hmid & Hpaths & Hres & Hread).
    exists s2. repeat (split; [assumption|]).
    unfold bind at 1. rewrite Hpre. rewrite bind_getMgr.
    unfold bind at 1. unfold attempt at 1. unfold call at 1. cbv zeta.
    destruct (setUnitProperties (trace s2) (dbus (mgr s2))
                (getUnitName (cgroups (mgr s2))) props) as [[]|e];
      unfold bind, attempt, fail;
      destruct (Freeze target _) as [r s4]; reflexivity. }
  destruct Hset as (s2 & Hmid & Hpaths & Hres & Hread & Heq).
  exists s2. cbv zeta in *. split; [exact Hmid|]. split; [exact Hpaths|].
  split.
  - destruct (paths (mgr s) !! "freezer") as [path|] eqn:Hfp.
    + split.
      { unfold GetFreezerState in Hst. rewrite bind_getMgr, Hfp in Hst.
        exact Hst. }
      split; [apply Hread; reflexivity|].
      rewrite Freeze_with_path with (path := path)
        by (cbn [mgr]; rewrite Hpaths; exact Hfp).
      cbn [mgr trace]. rewrite Hres.
      change (withFreezer (CgResources (cgroups (mgr s))) target)
        with (mkResources (Devices (CgResources (cgroups (mgr s))))
                (Memory (CgResources (cgroups (mgr s))))
                (CpuShares (CgResources (cgroups (mgr s))))
                (CpuQuota (CgResources (cgroups (mgr s))))
                (CpuPeriod (CgResources (cgroups (mgr s))))
                (BlkioWeight (CgResources (cgroups (mgr s))))
                (PidsLimit (CgResources (cgroups (mgr s))))
                (CpusetCpus (CgResources (cgroups (mgr s))))
                (CpusetMems (CgResources (cgroups (mgr s))))
                target (Unified (CgResources (cgroups (mgr s))))).
      match goal with
      | |- context [SubsystemSet ?h FreezerGroup path ?w] =>
        destruct (SubsystemSet h FreezerGroup path w) as [[]|e] eqn:Hw
      end; (split; [reflexivity|]); (split; [reflexivity|]);
        [reflexivity|discriminate].
    + rewrite Freeze_without_path by (cbn [mgr]; rewrite Hpaths; exact Hfp).
      reflexivity.
  - rewrite Heq.
    destruct (setUnitProperties (trace s2) (dbus (mgr s2))
                (getUnitName (cgroups (mgr s2))) props) as [[]|e]; reflexivity.
Qed.

End LegacyManager.

(** ** The legacy manager on concrete hosts *)

Section LegacyManagerOnHosts.
Import Go Systemd Vocabulary Scenario.

Lemma GetPids_GetAllPids_need_devices_path_witness :
  let s := stateOf managedConfig
             {[ "memory" := "/sys/fs/cgroup/memory/system.slice/ctr.scope" ]} in
  paths (mgr s) !! "devices" = None
  /\ GetPids (X := scripted calm) s = (Err errSubsystemDoesNotExist, s)
  /\ GetAllPids (X := scripted calm) s = (Err errSubsystemDoesNotExist, s).
Proof.
  intros s. split; [reflexivity|].
  apply (GetPids_GetAllPids_need_devices_path (X := scripted calm) s).
  reflexivity.
Defined.

Lemma Destroy_prefers_stop_error_witness :
  let s := stateOf managedConfig unitPaths in
  Paths (cgroups (mgr s)) = None
  /\ fst (Destroy (X := scripted calm) s) = Ok tt.
Proof.
  intros s. split; [reflexivity|].
  apply (Destroy_prefers_stop_error (X := scripted calm) s); reflexivity.
Defined.

(** C1, as the spec has it, fails: the unit stop fails with one error,
    the removal of the paths with another, and [Destroy] does not return
    the cleanup error but the stop error. *)
Lemma Destroy_both_fail_returns_stop_error :
  let X := scripted stuckHost in
  let s := stateOf managedConfig unitPaths in
  let m := mgr s in
  Paths (cgroups m) = None
  /\ stopUnit [EvLock] (dbus m) (getUnitName (cgroups m))
     = Err (ErrNew "stop failed")
  /\ snd (RemovePaths [EvLock; EvStopUnit (getUnitName (cgroups m))] (paths m))
     = Err (ErrNew "cleanup failed")
  /\ fst (Destroy s) = Err (ErrNew "stop failed")
  /\ fst (Destroy s) <> Err (ErrNew "cleanup failed").
Proof.
  cbv zeta. repeat split; try reflexivity.
  vm_compute. discriminate.
Qed.

Lemma scripted_helpers_keep_to_their_names sc :
  (forall ps, onDeviceRules sc = Ok ps -> foreign ps) ->
  helpersKeepToTheirNames (scripted sc).
Proof.
  intros Hdev.
  assert (Hone : forall n v,
             n ∉ translatorNames -> foreign [newProp n v]).
  { intros n v Hn. constructor; [exact Hn|constructor]. }
  assert (Hq : "CPUQuotaPeriodUSec" ∉ translatorNames).
  { unfold translatorNames. rewrite !elem_of_cons, elem_of_nil.
    intros [H|[H|[H|[H|[]]]]]; discriminate. }
  assert (Hc : "AllowedCPUs" ∉ translatorNames).
  { unfold translatorNames. rewrite !elem_of_cons, elem_of_nil.
    intros [H|[H|[H|[H|[]]]]]; discriminate. }
  split; [|split].
  - intros ds ps. cbn. apply Hdev.
  - intros cm ps quota period. cbn.
    destruct (period =? 0)%Z.
    + exists []. rewrite app_nil_r. split; [reflexivity|constructor].
    + eexists. split; [reflexivity|]. apply Hone, Hq.
  - intros cm ps cpus mems ps'. cbn.
    destruct (onCpuset sc); [discriminate|].
    destruct (String.eqb cpus ""); intros H; inversion H; subst ps'.
    + exists []. rewrite app_nil_r. split; [reflexivity|constructor].
    + eexists. split; [reflexivity|]. apply Hone, Hc.
Qed.

Lemma genV1ResourcesProperties_zero_value_semantics_witness :
  let X := scripted calm in
  let r := someResources in
  let props := fst (genV1ResourcesProperties r tt) in
  genV1ResourcesProperties r tt = (props, None)
  /\ (emits "MemoryLimit" props <-> Memory r <> 0%Z)
  /\ (emits "CPUShares" props <-> CpuShares r <> 0%Z)
  /\ (emits "BlockIOWeight" props <-> BlkioWeight r <> 0%Z)
  /\ (emits "TasksMax" props <-> (0 < PidsLimit r)%Z \/ PidsLimit r = (-1)%Z)
  /\ (PidsLimit r = 0%Z -> ~ emits "TasksMax" props).
Proof.
  intros X r props. split; [reflexivity|].
  apply (genV1ResourcesProperties_zero_value_semantics (X := X) r tt props).
  - apply scripted_helpers_keep_to_their_names.
    intros ps H. inversion H. constructor.
  - reflexivity.
Defined.

Lemma translation_error_leaves_nothing_witness :
  let X := scripted badRulesHost in
  generateDeviceProperties (Devices someResources)
  = Err (ErrNew "invalid device rule")
  /\ exists err,
       genV1ResourcesProperties someResources tt = ([], Some err)
       /\ forall s ref,
            Paths (cgroups (mgr s)) = None ->
            dbus (mgr s) = tt ->
            deref ref s = (Ok someResources, s) ->
            Unified someResources = None ->
            Set_ ref s = (Err err, s).
Proof.
  intros X. split; [reflexivity|].
  apply (translation_error_leaves_nothing (X := X) someResources tt).
  left. exists (ErrNew "invalid device rule"). reflexivity.
Defined.

Lemma Apply_with_supplied_paths_witness :
  let X := scripted calm in
  let s := stateOf joinedConfig ∅ in
  exists joined : gmap string string,
    (forall name path,
        joined !! name = Some path <->
        ({[ "memory" := "/sys/fs/cgroup/memory/ext" ;
            "cpu" := "/sys/fs/cgroup/cpu/ext" ]} : gmap string string)
          !! name = Some path
        /\ is_Some (({[ "memory" := "/" ; "devices" := "/" ]}
                     : gmap string string) !! name))
    /\ Apply 42 s
       = (Ok tt,
          mkState (mkLegacyManager joinedConfig joined tt)
                  [EvLock; EvParseCgroupFile "/proc/self/cgroup";
                   EvEnterPid joined 42; EvUnlock]).
Proof.
  intros X s.
  exact (proj2 (Apply_with_supplied_paths (X := X) s 42) _ eq_refl eq_refl).
Defined.

(** C4, as the spec has it, fails: a config that supplies paths and has a
    unified-resource value is rejected as well, before the pid is enrolled
    anywhere. *)
Lemma Apply_rejects_unified_with_supplied_paths :
  let X := scripted calm in
  let s := stateOf joinedUnifiedConfig ∅ in
  is_Some (Paths (cgroups (mgr s)))
  /\ Apply 42 s = (Err ErrV1NoUnified, s)
  /\ trace (snd (Apply 42 s)) = [].
Proof.
  cbv zeta. split; [eexists; reflexivity|]. split; reflexivity.
Qed.

(** C9, as the spec has it, fails: [GetPids], [Freeze] and [Set] do their
    work without taking the lock. *)
Lemma GetPids_Freeze_Set_take_no_lock :
  let X := scripted calm in
  let s := stateOf managedConfig unitPaths in
  trace (snd (GetPids s))
  = [EvGetPids "/sys/fs/cgroup/devices/system.slice/ctr.scope"]
  /\ trace (snd (Freeze Frozen s))
     = [EvSubsystemSet FreezerGroup
          "/sys/fs/cgroup/freezer/system.slice/ctr.scope"
          (withFreezer someResources Frozen)]
  /\ trace (snd (Set_ (RefOther someResources) s)) <> []
  /\ List.filter isLockOp (trace (snd (Set_ (RefOther someResources) s))) = [].
Proof.
  cbv zeta. split; [reflexivity|]. split; [reflexivity|].
  split; [vm_compute; discriminate|reflexivity].
Qed.

Lemma Apply_without_devices_hierarchy_witness :
  let X := scripted noDevicesHost in
  let s := stateOf managedConfig ∅ in
  (forall h, FindCgroupMountpoint h "" "devices"
             = Err (ErrNew "mountpoint not found"))
  /\ is_err (fst (Apply 42 s)) = true
  /\ extends notCreating s (snd (Apply 42 s))
  /\ mgr (snd (Apply 42 s)) = mgr s
  /\ exists own lookups,
       trace (snd (Apply 42 s))
       = [EvLock; EvStartUnit "ctr.scope" (own ++ [])]
         ++ lookups ++ [EvUnlock]
       /\ Forall (fun ev => isLookup ev = true) lookups
       /\ emitted "PIDs" own = [VUint32s [42%Z]].
Proof.
  intros X s. split; [intros h; reflexivity|].
  destruct (Apply_without_devices_hierarchy (X := X) s 42
              (ErrNew "mountpoint not found") eq_refl (fun h => eq_refl))
    as (H1 & H2 & H3 & _ & H5).
  repeat (split; [assumption|]). exact H5.
Defined.

(** C8, as the spec has it, fails: the devices hierarchy is not mounted
    and [Apply] returns the error, but by then it has started the unit
    with the pid in its PIDs property, and it returns without stopping
    that unit: the pid has been handed to a group that is left behind
    without a devices cgroup. *)
Lemma Apply_without_devices_leaves_unit_started :
  let X := scripted noDevicesHost in
  let s := stateOf managedConfig ∅ in
  let props :=
      [ PropDescription "libcontainer container ctr";
        PropSlice "system.slice";
        newProp "PIDs" (VUint32s [42%Z]);
        newProp "Delegate" (VBool true);
        newProp "MemoryAccounting" (VBool true);
        newProp "CPUAccounting" (VBool true);
        newProp "BlockIOAccounting" (VBool true);
        newProp "TasksAccounting" (VBool true);
        newProp "DefaultDependencies" (VBool false) ] in
  Paths (cgroups (mgr s)) = None
  /\ FindCgroupMountpoint
       [EvLock; EvStartUnit "ctr.scope" props;
        EvFindCgroupMountpoint "" "cpuset"; EvGetInitCgroup "cpuset"]
       "" "devices"
     = Err (ErrNew "mountpoint not found")
  /\ fst (Apply 42 s) = Err (ErrNew "mountpoint not found")
  /\ startUnit [EvLock] tt "ctr.scope" props = Ok tt
  /\ trace (snd (Apply 42 s))
     = [EvLock; EvStartUnit "ctr.scope" props;
        EvFindCgroupMountpoint "" "cpuset"; EvGetInitCgroup "cpuset";
        EvFindCgroupMountpoint "" "devices"; EvUnlock]
  /\ emitted "PIDs" props = [VUint32s [42%Z]]
  /\ List.filter isUnitManagerCall (trace (snd (Apply 42 s)))
     = [EvStartUnit "ctr.scope" props].
Proof. cbv zeta. repeat split; reflexivity. Qed.

Lemma Set_restores_freezer_state_witness :
  let X := scripted calm in
  let s := stateOf managedConfig unitPaths in
  let ref := RefOther someResources in
  let props := fst (genV1ResourcesProperties someResources tt) in
  exists s2,
    let s3 :=
        mkState (mgr s2)
          (trace s2
           ++ [EvSetUnitProperties (getUnitName (cgroups (mgr s2))) props]) in
    paths (mgr s2) = paths (mgr s)
    /\ trace (snd (Freeze Thawed s3))
       = trace s3
         ++ [EvSubsystemSet FreezerGroup
               "/sys/fs/cgroup/freezer/system.slice/ctr.scope"
               (mkResources [] 1024 0 0 0 10 (-1) "" "" Thawed None)]
    /\ Freezer (CgResources (cgroups (mgr (snd (Freeze Thawed s3))))) = Thawed
    /\ Set_ ref s = setLoop ref legacySubsystems (snd (Freeze Thawed s3)).
Proof.
  intros X s ref props.
  destruct (Set_restores_freezer_state (X := X) s ref someResources props Thawed
              eq_refl eq_refl eq_refl eq_refl eq_refl eq_refl)
    as (s2 & _ & Hpaths & Hfreezer & Hset).
  exists s2. cbv zeta.
  change (paths (mgr s) !! "freezer")
    with (Some "/sys/fs/cgroup/freezer/system.slice/ctr.scope") in Hfreezer.
  destruct Hfreezer as (_ & _ & Htrace & _ & Hrecorded).
  split; [exact Hpaths|]. split; [exact Htrace|].
  split; [apply Hrecorded; reflexivity|exact Hset].
Defined.

End LegacyManagerOnHosts.

(** ** Properties of the device-filter attacher *)

Section DeviceFilter.
Import Go Ebpf FilterVocabulary.
Context {Program Instructions : Type}.
Context {K : @Kernel Program Instructions}.
Implicit Types h : @History Program Instructions.

Lemma queryLoop_exhausted dirFd size retries h :
  (10 <= retries)%Z ->
  queryLoop dirFd size retries h
  = (Return (Err (ErrNew
       "could not get complete list of CGROUP_DEVICE programs")), h).
Proof.
  intros Hr. simp queryLoop.
  destruct (Z_lt_dec retries 10) as [Hlt|Hge]; [lia|]. reflexivity.
Qed.

Lemma queryLoop_step dirFd size retries h :
  (retries < 10)%Z ->
  queryLoop dirFd size retries h
  = match queryTurn dirFd size h with
    | (Return (Continue size'), h') => queryLoop dirFd size' (retries + 1) h'
    | (Return (Exit r), h') => (Return r, h')
    | (Panic reason, h') => (Panic reason, h')
    end.
Proof.
  intros Hr. simp queryLoop.
  destruct (Z_lt_dec retries 10) as [Hlt|Hge]; [|lia]. cbn.
  destruct (queryTurn dirFd size h) as [[[size'|r]|reason] h']; reflexivity.
Qed.

Lemma queryTurn_no_space dirFd size h :
  size <> O ->
  errno (progQueryReply (queriesIn h)) = ENOSPC ->
  queryTurn dirFd size h
  = (Return (Continue (ProgCnt (progQueryReply (queriesIn h)))),
     h ++ [queryEvent dirFd size]).
Proof.
  intros Hs He. unfold queryTurn.
  destruct (Nat.eqb_spec size 0) as [|_]; [contradiction|].
  unfold bind, ret. rewrite He. reflexivity.
Qed.

Lemma queryTurn_errno dirFd size h :
  size <> O ->
  errno (progQueryReply (queriesIn h)) <> 0%Z ->
  errno (progQueryReply (queriesIn h)) <> ENOSPC ->
  queryTurn dirFd size h
  = (Return (Exit (Err (ErrWrap "bpf_prog_query(BPF_CGROUP_DEVICE) failed"
                          (ErrErrno (errno (progQueryReply (queriesIn h))))))),
     h ++ [queryEvent dirFd size]).
Proof.
  intros Hs H0 He. unfold queryTurn.
  destruct (Nat.eqb_spec size 0) as [|_]; [contradiction|].
  unfold bind, ret.
  destruct (Z.eqb_spec (errno (progQueryReply (queriesIn h))) 0);
    [contradiction|].
  destruct (Z.eqb_spec (errno (progQueryReply (queriesIn h))) ENOSPC);
    [contradiction|].
  reflexivity.
Qed.

Lemma queryTurn_success dirFd size h :
  size <> O ->
  errno (progQueryReply (queriesIn h)) = 0%Z ->
  (ProgCnt (progQueryReply (queriesIn h)) <= size)%nat ->
  queryTurn dirFd size h
  = match programsFromIDs
            (reportedIds (progQueryReply (queriesIn h)) size)
            (h ++ [queryEvent dirFd size]) with
    | (Return r, h') => (Return (Exit r), h')
    | (Panic reason, h') => (Panic reason, h')
    end.
Proof.
  intros Hs He Hc. unfold queryTurn.
  destruct (Nat.eqb_spec size 0) as [|_]; [contradiction|].
  unfold bind at 1. rewrite He. cbn [Z.eqb negb].
  destruct (Nat.ltb_spec size (ProgCnt (progQueryReply (queriesIn h))));
    [lia|].
  unfold bind, ret, reportedIds, queryEvent.
  destruct (programsFromIDs _ _) as [[r|reason] h']; reflexivity.
Qed.

Lemma queriesIn_app h h' : queriesIn (h ++ h') = (queriesIn h + queriesIn h')%nat.
Proof. unfold queriesIn. rewrite List.filter_app, length_app. reflexivity. Qed.

Lemma queriesIn_queryEvents dirFd base n :
  queriesIn (queryEvents dirFd base n) = n.
Proof.
  unfold queryEvents, queriesIn.
  transitivity (length (seq 0 n)); [|apply length_seq].
  generalize (seq 0 n) as l.
  induction l as [|j l IH]; cbn; [reflexivity|]. rewrite IH. reflexivity.
Qed.

Lemma queryEvents_S dirFd base n :
  queryEvents dirFd base (S n)
  = queryEvents dirFd base n ++ [queryEvent dirFd (offered base n)].
Proof. unfold queryEvents. rewrite seq_S, map_app. reflexivity. Qed.

Lemma offered_nonzero base k : noSpaceTimes base k -> offered base k <> O.
Proof.
  intros H. destruct k as [|i]; cbn; [discriminate|]. apply H. lia.
Qed.

(** After [k] answers of "no space" the loop is at its [k]-th retry with
    the buffer length the last answer reported. *)
Lemma queryLoop_after_no_space dirFd h0 k :
  (k <= 10)%nat ->
  noSpaceTimes (queriesIn h0) k ->
  queryLoop dirFd 64 0 h0
  = queryLoop dirFd (offered (queriesIn h0) k) (Z.of_nat k)
              (h0 ++ queryEvents dirFd (queriesIn h0) k).
Proof.
  induction k as [|k IH]; intros Hk Hns.
  - cbn. rewrite app_nil_r. reflexivity.
  - assert (Hns' : noSpaceTimes (queriesIn h0) k)
      by (intros i Hi; apply Hns; lia).
    rewrite IH by (assumption || lia).
    rewrite queryLoop_step by lia.
    destruct (Hns k) as [He Hc]; [lia|].
    rewrite queryTurn_no_space.
    + rewrite queryEvents_S, app_assoc, queriesIn_app, queriesIn_queryEvents.
      cbn [offered]. f_equal. lia.
    + apply offered_nonzero, Hns'.
    + rewrite queriesIn_app, queriesIn_queryEvents. exact He.
Qed.

Lemma programsFromIDs_resolved ids h :
  (forall h' id, In id ids -> exists p, NewProgramFromID h' id = Ok p) ->
  exists programs,
    programsFromIDs ids h = (Return (Ok programs), h ++ fetchEvents ids)
    /\ length programs = length ids.
Proof.
  revert h. induction ids as [|id ids IH]; intros h Hres.
  - exists []. cbn. rewrite app_nil_r. split; reflexivity.
  - cbn [programsFromIDs]. unfold bind at 1. unfold call at 1.
    destruct (Hres h id) as [p Hp]; [left; reflexivity|]. rewrite Hp.
    destruct (IH (h ++ [EvNewProgramFromID id])) as (ps & Heq & Hlen).
    { intros h' id' Hin. apply Hres. right. exact Hin. }
    unfold bind. rewrite Heq. exists (p :: ps). split.
    + unfold ret, fetchEvents. cbn [map]. rewrite <- app_assoc. reflexivity.
    + cbn. rewrite Hlen. reflexivity.
Qed.

Lemma reportedIds_length reply cap :
  (ProgCnt reply <= cap)%nat -> length (reportedIds reply cap) = ProgCnt reply.
Proof.
  intros H. unfold reportedIds.
  rewrite !length_firstn, length_app, repeat_length. lia.
Qed.

(** C2. From any history, let the kernel answer the first [k] queries of
    the enumeration with ENOSPC and a count that is not zero.  The loop
    then has issued [k] queries, the first with a buffer of 64 ids and
    each later one with the count the answer before reported.
    - [k = 10]: the enumeration returns the error "could not get complete
      list", after exactly ten queries; this is not an error that wraps an
      errno.
    - [k < 10] and the next answer carries another errno: the enumeration
      returns that errno wrapped, after exactly [k + 1] queries.
    - [k < 10] and the next answer is a success whose count fits the
      buffer: the enumeration is the conversion of the first [ProgCnt] ids
      into program handles; when each of them resolves it returns that
      many programs. *)
Theorem enumeration_retries_on_no_space dirFd h0 k :
  let base := queriesIn h0 in
  let queried n := h0 ++ queryEvents dirFd base n in
  let last := progQueryReply (base + k) in
  let race :=
      ErrNew "could not get complete list of CGROUP_DEVICE programs" in
  noSpaceTimes base k ->
  (k = 10%nat ->
   findAttachedCgroupDeviceFilters dirFd h0 = (Return (Err race), queried 10%nat)
   /\ forall msg e, race <> ErrWrap msg e)
  /\ ((k < 10)%nat ->
      (errno last <> 0%Z -> errno last <> ENOSPC ->
       findAttachedCgroupDeviceFilters dirFd h0
       = (Return (Err (ErrWrap "bpf_prog_query(BPF_CGROUP_DEVICE) failed"
                               (ErrErrno (errno last)))),
          queried (S k)))
      /\ (errno last = 0%Z -> (ProgCnt last <= offered base k)%nat ->
          let ids := reportedIds last (offered base k) in
          findAttachedCgroupDeviceFilters dirFd h0
          = programsFromIDs ids (queried (S k))
          /\ length ids = ProgCnt last
          /\ ((forall h id, In id ids ->
                            exists p, NewProgramFromID h id = Ok p) ->
              exists programs,
                findAttachedCgroupDeviceFilters dirFd h0
                = (Return (Ok programs), queried (S k) ++ fetchEvents ids)
                /\ length programs = ProgCnt last))).
Proof.
  intros base queried last race Hns.
  unfold findAttachedCgroupDeviceFilters.
  split.
  - intros ->. split; [|discriminate].
    rewrite (queryLoop_after_no_space dirFd h0 10) by (exact Hns || lia).
    apply queryLoop_exhausted. lia.
  - intros Hk.
    rewrite (queryLoop_after_no_space dirFd h0 k) by (exact Hns || lia).
    rewrite queryLoop_step by lia.
    assert (Hq : queriesIn (h0 ++ queryEvents dirFd (queriesIn h0) k)
                 = (base + k)%nat)
      by (rewrite queriesIn_app, queriesIn_queryEvents; reflexivity).
    pose proof (offered_nonzero _ _ Hns) as Hsize.
    split.
    + intros H0 He.
      rewrite queryTurn_errno by (rewrite ?Hq; assumption).
      rewrite Hq. unfold queried. rewrite queryEvents_S, app_assoc.
      reflexivity.
    + intros H0 Hc.
      rewrite queryTurn_success by (rewrite ?Hq; assumption).
      rewrite Hq. fold last. fold base.
      set (ids := reportedIds last (offered base k)).
      assert (Hh : (h0 ++ queryEvents dirFd base k)
                   ++ [queryEvent dirFd (offered base k)] = queried (S k))
        by (unfold queried; rewrite queryEvents_S, app_assoc; reflexivity).
      rewrite Hh.
      assert (Heq : match programsFromIDs ids (queried (S k)) with
                    | (Return r, h') => (Return (Exit r), h')
                    | (Panic reason, h') => (Panic reason, h')
                    end
                    = (let (o, h') := programsFromIDs ids (queried (S k)) in
                       (match o with
                        | Return r => Return (Exit r)
                        | Panic reason => Panic reason
                        end, h')))
        by (destruct (programsFromIDs ids (queried (S k))) as [[r|reason] h'];
            reflexivity).
      split; [|split].
      * destruct (programsFromIDs ids (queried (S k))) as [[r|reason] h'];
          reflexivity.
      * apply reportedIds_length, Hc.
      * intros Hres.
        destruct (programsFromIDs_resolved ids (queried (S k)) Hres)
          as (ps & Hps & Hlen).
        exists ps. rewrite Hps. split; [reflexivity|].
        rewrite Hlen. apply reportedIds_length, Hc.
Qed.

(** *** Installing the filter *)

Lemma detachEvents_snoc dirFd (progs : list Program) p :
  detachEvents dirFd (progs ++ [p])
  = detachEvents dirFd progs
    ++ [EvRawDetachProgram (detachOpts dirFd p) : @Event Program Instructions].
Proof. unfold detachEvents. rewrite map_app. reflexivity. Qed.

(** The loop over the old programs when every detach succeeds. *)
Lemma detachOldProgs_all dirFd (rest : list Program) h :
  (forall i p, rest !! i = Some p ->
     RawDetachProgram (h ++ detachEvents dirFd (take i rest))
                      (detachOpts dirFd p) = Ok tt) ->
  detachOldProgs dirFd rest h = (Return None, h ++ detachEvents dirFd rest).
Proof.
  revert h. induction rest as [|p rest IH]; intros h Hok.
  - cbn. rewrite app_nil_r. reflexivity.
  - cbn [detachOldProgs]. unfold bind at 1. unfold call at 1.
    pose proof (Hok O p eq_refl) as H0. cbn in H0. rewrite app_nil_r in H0.
    fold (detachOpts dirFd p). rewrite H0.
    rewrite IH.
    + unfold detachEvents. cbn [map]. rewrite <- app_assoc. reflexivity.
    + intros i q Hq. specialize (Hok (S i) q Hq). cbn in Hok.
      rewrite <- app_assoc. exact Hok.
Qed.

(** The loop stops at the first detach that fails and returns its error
    wrapped; the programs after it are not detached. *)
Lemma detachOldProgs_fails dirFd (rest : list Program) h i p e :
  rest !! i = Some p ->
  (forall j q, (j < i)%nat -> rest !! j = Some q ->
     RawDetachProgram (h ++ detachEvents dirFd (take j rest))
                      (detachOpts dirFd q) = Ok tt) ->
  RawDetachProgram (h ++ detachEvents dirFd (take i rest))
                   (detachOpts dirFd p) = Err e ->
  detachOldProgs dirFd rest h
  = (Return (Some (ErrWrap
       "failed to call BPF_PROG_DETACH (BPF_CGROUP_DEVICE) on old filter program"
       e)),
     h ++ detachEvents dirFd (take (S i) rest)).
Proof.
  revert rest h. induction i as [|i IH]; intros rest h Hp Hbefore Hfail;
    destruct rest as [|q rest]; try discriminate.
  - cbn in Hp. inversion Hp; subst q. cbn in Hfail. rewrite app_nil_r in Hfail.
    cbn [detachOldProgs]. unfold bind, call, ret.
    fold (detachOpts dirFd p). rewrite Hfail. reflexivity.
  - cbn in Hp. cbn [detachOldProgs]. unfold bind at 1. unfold call at 1.
    pose proof (Hbefore O q ltac:(lia) eq_refl) as H0.
    cbn in H0. rewrite app_nil_r in H0.
    fold (detachOpts dirFd q). rewrite H0.
    rewrite (IH rest _ Hp).
    + cbn [take detachEvents map]. unfold detachEvents.
      rewrite <- app_assoc. reflexivity.
    + intros j r Hj Hr. specialize (Hbefore (S j) r ltac:(lia) Hr).
      cbn in Hbefore. rewrite <- app_assoc. exact Hbefore.
    + cbn in Hfail. rewrite <- app_assoc. exact Hfail.
Qed.

Lemma replaceTarget_spec (oldProgs : list Program) :
  (if Nat.eqb (length oldProgs) 1 then head oldProgs else None)
  = replaceTarget oldProgs.
Proof. destruct oldProgs as [|p [|q l]]; reflexivity. Qed.

(** C3. Let the enumeration find [oldProgs], the new program load and the
    attach succeed.  The attach is issued with BPF_F_ALLOW_MULTI and with a
    replace target that is the old program when there is exactly one, and
    none otherwise.  With at most one old program nothing else is called.
    With more than one, a warning is logged and the old programs are
    detached one by one in order: when every detach succeeds all of them
    have been detached and no error is returned; when one fails, its error
    is returned wrapped.  In every case the revert action returned is the
    closure that detaches the new program. *)
Theorem install_replaces_or_cleans_up insts license dirFd h0 oldProgs h1 prog :
  let spec := mkProgramSpec CGroupDevice insts license in
  let opts :=
      mkRawAttach dirFd prog (replaceTarget oldProgs) AttachCGroupDevice
                  BPF_F_ALLOW_MULTI in
  let h2 := h1 ++ [EvNewProgram spec] in
  let h3 := h2 ++ [EvRawAttachProgram opts] in
  let h4 :=
      h3 ++ [EvWarnf
               "found more than one filter (%d) attached to a cgroup -- removing extra filters!"
               (length oldProgs)] in
  let revert := closer dirFd prog in
  findAttachedCgroupDeviceFilters dirFd
    (h0 ++ [EvSetrlimit RLIMIT_MEMLOCK RLIM_INFINITY RLIM_INFINITY])
  = (Return (Ok oldProgs), h1) ->
  NewProgram h1 spec = Ok prog ->
  RawAttachProgram h2 opts = Ok tt ->
  (forall h,
      runCloser revert h
      = (Return match RawDetachProgram h (detachOpts dirFd prog) with
                | Err e =>
                  Some (ErrWrap
                    "failed to call BPF_PROG_DETACH (BPF_CGROUP_DEVICE)" e)
                | Ok _ => None
                end,
         h ++ [EvRawDetachProgram (detachOpts dirFd prog)]))
  /\ ((length oldProgs <= 1)%nat ->
      LoadAttachCgroupDeviceFilter insts license dirFd h0
      = (Return (revert, None), h3))
  /\ ((1 < length oldProgs)%nat ->
      ((forall i p, oldProgs !! i = Some p ->
          RawDetachProgram (h4 ++ detachEvents dirFd (take i oldProgs))
                           (detachOpts dirFd p) = Ok tt) ->
       LoadAttachCgroupDeviceFilter insts license dirFd h0
       = (Return (revert, None), h4 ++ detachEvents dirFd oldProgs))
      /\ (forall i p e,
             oldProgs !! i = Some p ->
             (forall j q, (j < i)%nat -> oldProgs !! j = Some q ->
                RawDetachProgram (h4 ++ detachEvents dirFd (take j oldProgs))
                                 (detachOpts dirFd q) = Ok tt) ->
             RawDetachProgram (h4 ++ detachEvents dirFd (take i oldProgs))
                              (detachOpts dirFd p) = Err e ->
             LoadAttachCgroupDeviceFilter insts license dirFd h0
             = (Return (revert,
                        Some (ErrWrap
                          "failed to call BPF_PROG_DETACH (BPF_CGROUP_DEVICE) on old filter program"
                          e)),
                h4 ++ detachEvents dirFd (take (S i) oldProgs)))).
Proof.
  intros spec opts h2 h3 h4 revert Hfind Hnew Hattach.
  assert (Hload :
    LoadAttachCgroupDeviceFilter insts license dirFd h0
    = if (1 <? length oldProgs)%nat
      then let (o, h') := detachOldProgs dirFd oldProgs h4 in
           (match o with
            | Return err => Return (revert, err)
            | Panic reason => Panic reason
            end, h')
      else (Return (revert, None), h3)).
  { unfold LoadAttachCgroupDeviceFilter.
    unfold bind at 1. unfold call at 1.
    unfold bind at 1. rewrite Hfind.
    unfold bind at 1. unfold call at 1. fold spec. rewrite Hnew.
    rewrite replaceTarget_spec. fold opts.
    unfold bind at 1. unfold call at 1. fold h2. rewrite Hattach. fold h3.
    destruct (1 <? length oldProgs)%nat; [|reflexivity].
    unfold bind at 1. unfold call at 1. fold h4.
    unfold bind, ret.
    destruct (detachOldProgs dirFd oldProgs h4) as [[err|reason] h'];
      reflexivity. }
  split; [|split].
  - intros h. unfold runCloser, revert, bind, call, ret.
    fold (detachOpts dirFd prog).
    destruct (RawDetachProgram h (detachOpts dirFd prog)) as [[]|e];
      reflexivity.
  - intros Hle. rewrite Hload.
    destruct (Nat.ltb_spec 1 (length oldProgs)); [lia|reflexivity].
  - intros Hgt.
    destruct (Nat.ltb_spec 1 (length oldProgs)) as [_|]; [|lia].
    split.
    + intros Hok. rewrite Hload.
      rewrite (detachOldProgs_all dirFd oldProgs h4 Hok). reflexivity.
    + intros i p e Hp Hbefore Hfail. rewrite Hload.
      rewrite (detachOldProgs_fails dirFd oldProgs h4 i p e Hp Hbefore Hfail).
      reflexivity.
Qed.

End DeviceFilter.

(** ** The attacher on concrete kernels *)

Section DeviceFilterOnKernels.
Import Go Ebpf FilterVocabulary FilterScenario.

(** One "no space" answer that asks for 70 ids, then two programs. *)
Lemma enumeration_retries_on_no_space_witness :
  let K := scriptedKernel [noSpace 70; found [7%Z; 8%Z]]
                          (fun id => Ok id) (fun _ => None) in
  noSpaceTimes 0 1
  /\ exists programs,
       findAttachedCgroupDeviceFilters 3 []
       = (Return (Ok programs),
          [queryEvent 3 64; queryEvent 3 70;
           EvNewProgramFromID 7; EvNewProgramFromID 8])
       /\ length programs = 2%nat.
Proof.
  intros K.
  assert (Hns : noSpaceTimes (K := K) (queriesIn (@nil (@Event Z (list Z)))) 1).
  { intros i Hi. destruct i as [|i]; [split; [reflexivity|discriminate]|lia]. }
  split; [exact Hns|].
  destruct (enumeration_retries_on_no_space (K := K) 3 [] 1 Hns) as [_ Hlt].
  destruct (Hlt ltac:(lia)) as [_ Hok].
  destruct (Hok eq_refl ltac:(cbn; lia)) as (_ & _ & Hres).
  apply Hres. intros h id _. exists id. reflexivity.
Defined.

(** Two old programs are found; both detaches succeed. *)
Lemma install_replaces_or_cleans_up_witness :
  let K := scriptedKernel [found [7%Z; 8%Z]] (fun id => Ok id) (fun _ => None) in
  let h1 :=
      snd (findAttachedCgroupDeviceFilters 3
             [EvSetrlimit RLIMIT_MEMLOCK RLIM_INFINITY RLIM_INFINITY]) in
  findAttachedCgroupDeviceFilters 3
    [EvSetrlimit RLIMIT_MEMLOCK RLIM_INFINITY RLIM_INFINITY]
  = (Return (Ok [7%Z; 8%Z]), h1)
  /\ LoadAttachCgroupDeviceFilter [] "Apache" 3 []
     = (Return (closer 3 1000%Z, None),
        h1 ++ [EvNewProgram (mkProgramSpec CGroupDevice [] "Apache");
               EvRawAttachProgram
                 (mkRawAttach 3 1000%Z None AttachCGroupDevice BPF_F_ALLOW_MULTI);
               EvWarnf
                 "found more than one filter (%d) attached to a cgroup -- removing extra filters!"
                 2;
               EvRawDetachProgram (detachOpts 3 7%Z);
               EvRawDetachProgram (detachOpts 3 8%Z)]).
Proof.
  intros K h1. split; [reflexivity|].
  destruct (install_replaces_or_cleans_up (K := K) [] "Apache" 3 []
              [7%Z; 8%Z] h1 1000%Z eq_refl eq_refl eq_refl)
    as (_ & _ & Hmany).
  destruct (Hmany ltac:(cbn; lia)) as [Hall _].
  rewrite Hall; [|intros i p _; reflexivity].
  rewrite <- !app_assoc. reflexivity.
Defined.

End DeviceFilterOnKernels.

(** ** More on the legacy manager *)

Section LegacyManagerLoops.
Import Go Systemd Vocabulary LoopVocabulary.
Context {DeviceRule dbusConnManager Stats : Type}.
Context {X : @Externals DeviceRule dbusConnManager Stats}.
Implicit Types s : @State DeviceRule dbusConnManager.
Implicit Types m : @legacyManager DeviceRule dbusConnManager.


(** X2. A manager of supplied paths is never reconfigured nor torn down:
    [Set] and [Destroy] return no error, call nothing and leave the
    manager as it is, whatever the Resources value is. *)
Theorem supplied_paths_Set_Destroy_do_nothing s ref :
  is_Some (Paths (cgroups (mgr s))) ->
  Set_ ref s = (Ok tt, s) /\ Destroy s = (Ok tt, s).
Proof.
  intros [ps Hp]. unfold Set_, Destroy. rewrite !bind_getMgr, Hp.
  split; reflexivity.
Qed.

Lemma tracked_cons_Some m sys rest path :
  paths m !! subsystemName sys = Some path ->
  tracked m (sys :: rest) = (sys, path) :: tracked m rest.
Proof. intros H. unfold tracked. cbn. rewrite H. reflexivity. Qed.

Lemma tracked_cons_None m sys rest :
  paths m !! subsystemName sys = None ->
  tracked m (sys :: rest) = tracked m rest.
Proof. intros H. unfold tracked. cbn. rewrite H. reflexivity. Qed.



Lemma withStats_cons_call m sys rest path :
  paths m !! subsystemName sys = Some path ->
  String.eqb path "" = false ->
  withStats m (sys :: rest) = (sys, path) :: withStats m rest.
Proof.
  intros Hp He. unfold withStats. rewrite (tracked_cons_Some _ _ _ _ Hp).
  cbn. rewrite He. reflexivity.
Qed.

Lemma withStats_cons_skip m sys rest :
  String.eqb (default "" (paths m !! subsystemName sys)) "" = true ->
  withStats m (sys :: rest) = withStats m rest.
Proof.
  intros He. unfold withStats.
  destruct (paths m !! subsystemName sys) as [path|] eqn:Hp.
  - rewrite (tracked_cons_Some _ _ _ _ Hp). cbn in *. rewrite He. reflexivity.
  - rewrite (tracked_cons_None _ _ _ Hp). reflexivity.
Qed.

Lemma getStatsLoop_run subsystems stats s :
  exists res s',
    getStatsLoop subsystems stats s = (res, s')
    /\ mgr s' = mgr s
    /\ match res with
       | Ok stats' =>
         trace s' = trace s ++ statsEvents (withStats (mgr s) subsystems)
         /\ stats' = statsAfter (trace s) stats (withStats (mgr s) subsystems)
         /\ collectorsAnswer (trace s) stats (withStats (mgr s) subsystems)
       | Err e =>
         exists pre sys path post,
           withStats (mgr s) subsystems = pre ++ (sys, path) :: post
           /\ trace s'
              = trace s ++ statsEvents pre ++ [EvSubsystemGetStats sys path]
           /\ collectorsAnswer (trace s) stats pre
           /\ snd (SubsystemGetStats (trace s ++ statsEvents pre) sys path
                                     (statsAfter (trace s) stats pre))
              = Err e
       end.
Proof.
  revert stats s. induction subsystems as [|sys rest IH]; intros stats s.
  - exists (Ok stats), s. cbn. rewrite app_nil_r. auto.
  - cbn [getStatsLoop]. rewrite bind_getMgr. cbv zeta.
    destruct (String.eqb (default "" (paths (mgr s) !! subsystemName sys)) "")
      eqn:He.
    + rewrite (withStats_cons_skip _ _ _ He). apply IH.
    + destruct (paths (mgr s) !! subsystemName sys) as [path|] eqn:Hp;
        [|discriminate].
      change (default "" (Some path)) with path in *.
      rewrite (withStats_cons_call _ _ _ _ Hp He).
      unfold bind at 1. unfold callGetStats at 1.
      destruct (SubsystemGetStats (trace s) sys path stats) as [stats1 r]
        eqn:Hcall.
      destruct r as [[]|e].
      * destruct (IH stats1
                    (mkState (mgr s) (trace s ++ [EvSubsystemGetStats sys path])))
          as (res & s' & Heq & Hm & Hres).
        cbn [mgr trace] in *.
        exists res, s'. split; [exact Heq|]. split; [exact Hm|].
        destruct res as [stats'|e].
        -- destruct Hres as (Ht & Hs & Ha).
           cbn [statsAfter collectorsAnswer statsEvents map fst snd].
           rewrite Hcall. cbn [fst snd].
           split; [rewrite Ht, <- app_assoc; reflexivity|].
           split; [exact Hs|]. split; [reflexivity|exact Ha].
        -- destruct Hres as (pre & sys' & path' & post & Hl & Ht & Ha & He').
           exists ((sys, path) :: pre), sys', path', post.
           split; [rewrite Hl; reflexivity|].
           cbn [statsAfter collectorsAnswer statsEvents map fst snd].
           rewrite Hcall. cbn [fst snd].
           split; [rewrite Ht, <- !app_assoc; reflexivity|].
           split; [split; [reflexivity|exact Ha]|].
           rewrite <- He'. unfold statsEvents. rewrite <- !app_assoc.
           reflexivity.
      * eexists. eexists. split; [reflexivity|]. cbn [mgr trace].
        split; [reflexivity|].
        exists [], sys, path, (withStats (mgr s) rest).
        cbn. rewrite app_nil_r, Hcall. auto.
Qed.

(** X4. [GetStats] holds the lock and asks, in the order of
    [legacySubsystems], the collectors of the subsystems whose path is in
    the table and is not the empty string, each filling the aggregate the
    one before has left; the manager is left as it is.  When it returns
    statistics, every such collector has been asked and has answered
    without an error, and the statistics are the aggregate after the last
    of them ([NewStats] itself with none to ask).  When it returns an
    error, the collectors before the failing one have answered without an
    error, the error returned is the answer of the failing one, the
    collectors after it have not been asked, and the lock is released. *)
Theorem GetStats_asks_tracked_collectors s :
  let l := withStats (mgr s) legacySubsystems in
  let h0 := trace s ++ [EvLock] in
  let s' := snd (GetStats s) in
  mgr s' = mgr s
  /\ match fst (GetStats s) with
     | Ok stats =>
       trace s' = h0 ++ statsEvents l ++ [EvUnlock]
       /\ collectorsAnswer h0 NewStats l
       /\ stats = statsAfter h0 NewStats l
       /\ (l = [] -> stats = NewStats)
     | Err e =>
       exists pre sys path post,
         l = pre ++ (sys, path) :: post
         /\ trace s'
            = h0 ++ statsEvents pre ++ [EvSubsystemGetStats sys path; EvUnlock]
         /\ collectorsAnswer h0 NewStats pre
         /\ snd (SubsystemGetStats (h0 ++ statsEvents pre) sys path
                                   (statsAfter h0 NewStats pre))
            = Err e
     end.
Proof.
  cbv zeta. unfold GetStats, locked.
  destruct (getStatsLoop_run legacySubsystems NewStats
              (mkState (mgr s) (trace s ++ [EvLock])))
    as (res & s' & Heq & Hm & Hres).
  rewrite Heq. cbn [fst snd mgr trace] in *. split; [exact Hm|].
  destruct res as [stats|e].
  - destruct Hres as (Ht & Hs & Ha).
    split; [rewrite Ht, <- !app_assoc; reflexivity|].
    split; [exact Ha|]. split; [exact Hs|].
    intros Hnil. rewrite Hs, Hnil. reflexivity.
  - destruct Hres as (pre & sys & path & post & Hl & Ht & Ha & He).
    exists pre, sys, path, post. split; [exact Hl|].
    split; [rewrite Ht, <- !app_assoc; reflexivity|].
    split; [exact Ha|exact He].
Qed.

Lemma startOf_refl {A} (l : list A) : startOf l l.
Proof. exists []. rewrite app_nil_r. reflexivity. Qed.

Lemma startOf_nil {A} (l : list A) : startOf [] l.
Proof. exists l. reflexivity. Qed.

Lemma startOf_app {A} (a l full : list A) :
  startOf l full -> startOf (a ++ l) (a ++ full).
Proof. intros [rest ->]. exists rest. rewrite app_assoc. reflexivity. Qed.

Lemma startOf_app_r {A} (l full more : list A) :
  startOf l full -> startOf l (full ++ more).
Proof. intros [rest ->]. exists (rest ++ more). rewrite app_assoc. reflexivity. Qed.

Lemma joinCgroupsLoop_run pid subsystems s :
  exists res s' new,
    joinCgroupsLoop pid subsystems s = (res, s')
    /\ mgr s' = mgr s
    /\ trace s' = trace s ++ new
    /\ startOf new (flat_map (joinBlock (mgr s) pid) subsystems)
    /\ (res = Ok tt -> new = flat_map (joinBlock (mgr s) pid) subsystems).
Proof.
  revert s. induction subsystems as [|sys rest IH]; intros s.
  - exists (Ok tt), s, []. cbn. rewrite app_nil_r.
    repeat split; auto. apply startOf_refl.
  - cbn [joinCgroupsLoop flat_map]. cbv zeta. rewrite bind_getMgr.
    unfold joinBlock at 1 3. cbv zeta.
    assert (Hgo : forall new1 s1,
               mgr s1 = mgr s -> trace s1 = trace s ++ new1 ->
               exists res s' new,
                 joinCgroupsLoop pid rest s1 = (res, s')
                 /\ mgr s' = mgr s
                 /\ trace s' = trace s ++ new
                 /\ startOf new
                      (new1 ++ flat_map (joinBlock (mgr s) pid) rest)
                 /\ (res = Ok tt ->
                     new = new1 ++ flat_map (joinBlock (mgr s) pid) rest)).
    { intros new1 s1 Hm1 Ht1.
      destruct (IH s1) as (res & s' & new & Heq & Hm & Ht & Hst & Hok).
      rewrite Hm1 in *.
      exists res, s', (new1 ++ new). split; [exact Heq|].
      split; [exact Hm|].
      split; [rewrite Ht, Ht1, <- app_assoc; reflexivity|].
      split; [apply startOf_app, Hst|].
      intros Hr. rewrite (Hok Hr). reflexivity. }
    destruct (String.eqb (subsystemName sys) "name=systemd").
    { unfold bind at 1. unfold ret at 1.
      apply (Hgo [] s); [reflexivity|rewrite app_nil_r; reflexivity]. }
    destruct (paths (mgr s) !! subsystemName sys) as [path|] eqn:Hp.
    2:{ destruct (String.eqb (subsystemName sys) "cpuset");
          unfold bind at 1; unfold ret at 1;
          apply (Hgo [] s); reflexivity || (rewrite app_nil_r; reflexivity). }
    destruct (String.eqb (subsystemName sys) "cpuset").
    + unfold bind at 1. unfold call at 1.
      destruct (CpusetApplyDir (trace s) path _ pid) as [[]|e].
      * apply (Hgo [_]); reflexivity.
      * eexists. eexists. exists [EvCpusetApplyDir path
                                    (CgResources (cgroups (mgr s))) pid].
        split; [reflexivity|]. cbn [mgr trace].
        repeat split; try reflexivity.
        -- eexists. cbn. reflexivity.
        -- discriminate.
    + unfold bind at 1. unfold bind at 1. unfold call at 1.
      destruct (MkdirAll (trace s) path 493) as [[]|e].
      * unfold call at 1. cbn [mgr trace].
        destruct (WriteCgroupProc _ path pid) as [[]|e].
        -- apply (Hgo [_; _]); [reflexivity|].
           cbn [trace]. rewrite <- app_assoc. reflexivity.
        -- eexists. eexists. exists [EvMkdirAll path 493;
                                     EvWriteCgroupProc path pid].
           split; [reflexivity|]. cbn [mgr trace].
           repeat split; try reflexivity.
           ++ rewrite <- app_assoc. reflexivity.
           ++ eexists. cbn. reflexivity.
           ++ discriminate.
      * eexists. eexists. exists [EvMkdirAll path 493].
        split; [reflexivity|]. cbn [mgr trace].
        repeat split; try reflexivity.
        -- eexists. cbn. reflexivity.
        -- discriminate.
Qed.

(** X5. [joinCgroups] walks the subsystems in order and leaves the manager
    as it is.  For a tracked subsystem it makes the directory (mode 0755)
    and then writes the pid into it; for cpuset it calls [ApplyDir]
    instead; for "name=systemd" and for untracked subsystems it calls
    nothing.  What it has called is always a start of that sequence, and
    the whole sequence when it returns no error. *)
Theorem joinCgroups_enrolls_in_order pid s :
  let plan := flat_map (joinBlock (mgr s) pid) legacySubsystems in
  let s' := snd (joinCgroups pid s) in
  mgr s' = mgr s
  /\ exists new,
       trace s' = trace s ++ new
       /\ startOf new plan
       /\ (fst (joinCgroups pid s) = Ok tt -> new = plan).
Proof.
  cbv zeta. unfold joinCgroups.
  destruct (joinCgroupsLoop_run pid legacySubsystems s)
    as (res & s' & new & Heq & Hm & Ht & Hst & Hok).
  rewrite Heq. cbn [fst snd]. split; [exact Hm|].
  exists new. auto.
Qed.

(** X6. With device rules skipped [Set] neither reads the freezer state
    nor freezes: its first call is the unit manager's.  After that call,
    failed or not, it still runs [Freeze] with [Undefined]: with a freezer
    path that writes [Undefined] through the freezer controller and, when
    the write succeeds, leaves [Undefined] as the config's recorded
    freezer state. *)
Theorem Set_with_devices_skipped s ref r0 props :
  Paths (cgroups (mgr s)) = None ->
  SkipDevices (cgroups (mgr s)) = true ->
  deref ref s = (Ok r0, s) ->
  Unified r0 = None ->
  genV1ResourcesProperties r0 (dbus (mgr s)) = (props, None) ->
  let unitName := getUnitName (cgroups (mgr s)) in
  let s1 := mkState (mgr s) (trace s ++ [EvSetUnitProperties unitName props]) in
  let after := snd (Freeze Undefined s1) in
  let wanted := withFreezer (CgResources (cgroups (mgr s))) Undefined in
  match setUnitProperties (trace s) (dbus (mgr s)) unitName props with
  | Err e => Set_ ref s = (Err e, after)
  | Ok _ => Set_ ref s = setLoop ref legacySubsystems after
  end
  /\ (forall path,
         paths (mgr s) !! "freezer" = Some path ->
         trace after = trace s1 ++ [EvSubsystemSet FreezerGroup path wanted]
         /\ (SubsystemSet (trace s1) FreezerGroup path wanted = Ok tt ->
             Freezer (CgResources (cgroups (mgr after))) = Undefined)).
Proof.
  intros Hp Hskip Hd Hu Hgen unitName s1 after wanted. split.
  - assert (Heq :
      Set_ ref s
      = match setUnitProperties (trace s) (dbus (mgr s)) unitName props with
        | Err e => (Err e, after)
        | Ok _ => setLoop ref legacySubsystems after
        end).
    { unfold Set_. rewrite bind_getMgr, Hp. unfold bind at 1.
      rewrite Hd, Hu, Hgen, Hskip. cbn [negb].
      unfold bind at 1. unfold ret at 1. rewrite bind_getMgr.
      unfold bind at 1. unfold attempt at 1. unfold call at 1.
      fold unitName. fold s1.
      destruct (setUnitProperties (trace s) (dbus (mgr s)) unitName props)
        as [[]|e]; unfold bind, attempt, fail; subst after;
        destruct (Freeze Undefined s1) as [r s4]; reflexivity. }
    rewrite Heq.
    destruct (setUnitProperties (trace s) (dbus (mgr s)) unitName props)
      as [[]|e]; reflexivity.
  - intros path Hpath. subst after.
    rewrite (Freeze_with_path Undefined path s1 Hpath). cbv zeta.
    change (withFreezer (CgResources (cgroups (mgr s1))) Undefined) with wanted.
    change (trace s1) with (trace s ++ [EvSetUnitProperties unitName props]).
    destruct (SubsystemSet (trace s ++ [EvSetUnitProperties unitName props])
                           FreezerGroup path wanted) as [[]|e];
      (split; [reflexivity|]); [reflexivity|discriminate].
Qed.

(** X7. Without a freezer path [Set] still goes through: the freezer reads
    as [Undefined] without a call, the failed freeze is logged with
    [errSubsystemDoesNotExist], the unit manager is called, the restore
    does nothing, and the subsystems are set.  The manager is not
    changed on the way to the subsystems. *)
Theorem Set_without_freezer_path s ref r0 props :
  Paths (cgroups (mgr s)) = None ->
  SkipDevices (cgroups (mgr s)) = false ->
  deref ref s = (Ok r0, s) ->
  Unified r0 = None ->
  genV1ResourcesProperties r0 (dbus (mgr s)) = (props, None) ->
  paths (mgr s) !! "freezer" = None ->
  let unitName := getUnitName (cgroups (mgr s)) in
  let h1 :=
      trace s ++ [EvLogInfo "freeze container before SetUnitProperties failed"
                            errSubsystemDoesNotExist] in
  let s2 := mkState (mgr s) (h1 ++ [EvSetUnitProperties unitName props]) in
  match setUnitProperties h1 (dbus (mgr s)) unitName props with
  | Err e => Set_ ref s = (Err e, s2)
  | Ok _ => Set_ ref s = setLoop ref legacySubsystems s2
  end.
Proof.
  intros Hp Hskip Hd Hu Hgen Hfp unitName h1 s2.
  assert (Heq :
    Set_ ref s
    = match setUnitProperties h1 (dbus (mgr s)) unitName props with
      | Err e => (Err e, s2)
      | Ok _ => setLoop ref legacySubsystems s2
      end).
  { unfold Set_. rewrite bind_getMgr, Hp. unfold bind at 1.
    rewrite Hd, Hu, Hgen, Hskip. cbn [negb].
    unfold bind at 1. unfold bind at 1. unfold GetFreezerState at 1.
    rewrite bind_getMgr, Hfp. unfold ret at 1.
    unfold bind at 1. unfold attempt at 1.
    rewrite (Freeze_without_path Frozen s Hfp).
    unfold bind at 1. unfold emit at 1. unfold ret at 1. cbn [mgr trace].
    fold h1. rewrite bind_getMgr. cbn [mgr].
    unfold bind at 1. unfold attempt at 1. unfold call at 1. cbn [mgr trace].
    fold unitName. fold s2.
    assert (Hf : Freeze Thawed s2 = (Err errSubsystemDoesNotExist, s2))
      by (apply Freeze_without_path; exact Hfp).
    destruct (setUnitProperties h1 (dbus (mgr s)) unitName props) as [[]|e];
      unfold bind, attempt, fail; rewrite Hf; reflexivity. }
  rewrite Heq.
  destruct (setUnitProperties h1 (dbus (mgr s)) unitName props) as [[]|e];
    reflexivity.
Qed.

(** *** The path table Apply builds *)

Lemma resolvePathsLoop_run subsystems acc s :
  exists res s',
    resolvePathsLoop subsystems acc s = (res, s')
    /\ mgr s' = mgr s
    /\ match res with
       | Ok table =>
         (forall k, is_Some (acc !! k) -> is_Some (table !! k))
         /\ (forall k, is_Some (table !! k) ->
                       is_Some (acc !! k) \/ k ∈ map subsystemName subsystems)
         /\ ("devices" ∈ map subsystemName subsystems ->
             is_Some (table !! "devices"))
       | Err _ => True
       end.
Proof.
  revert acc s. induction subsystems as [|sys rest IH]; intros acc s.
  - exists (Ok acc), s. cbn. repeat split; auto.
    intros H. inversion H.
  - cbn [resolvePathsLoop]. rewrite bind_getMgr.
    unfold bind at 1. unfold attempt at 1.
    pose proof (getSubsystemPath_keeps_manager (cgroups (mgr s))
                  (subsystemName sys) s) as Hm1.
    destruct (getSubsystemPath (cgroups (mgr s)) (subsystemName sys) s)
      as [r s1].
    cbn [snd] in Hm1.
    destruct r as [path|err].
    + destruct (IH (<[subsystemName sys := path]> acc) s1)
        as (res & s' & Heq & Hm & Hres).
      exists res, s'. split; [exact Heq|]. split; [congruence|].
      destruct res as [table|e]; [|exact I].
      destruct Hres as (Hkeep & Hfrom & Hdev).
      split; [|split].
      * intros k Hk. apply Hkeep.
        destruct (decide (subsystemName sys = k)) as [Hk'|Hne].
        -- rewrite <- Hk', lookup_insert_eq. eauto.
        -- rewrite lookup_insert_ne by exact Hne. exact Hk.
      * intros k Hk. destruct (Hfrom k Hk) as [Hin|Hin].
        -- destruct (decide (subsystemName sys = k)) as [Hk'|Hne].
           ++ right. cbn [map]. rewrite <- Hk'. left.
           ++ rewrite lookup_insert_ne in Hin by exact Hne. left. exact Hin.
        -- right. cbn [map]. right. exact Hin.
      * intros Hin. cbn in Hin. apply elem_of_cons in Hin as [Hd|Hin].
        -- apply Hkeep. rewrite <- Hd, lookup_insert_eq. eauto.
        -- apply Hdev, Hin.
    + destruct (String.eqb_spec (subsystemName sys) "devices") as [Hd|Hnd].
      { exists (Err err), s1. unfold fail. auto. }
      destruct (IsNotFound err).
      * destruct (IH acc s1) as (res & s' & Heq & Hm & Hres).
        exists res, s'. split; [exact Heq|]. split; [congruence|].
        destruct res as [table|e]; [|exact I].
        destruct Hres as (Hkeep & Hfrom & Hdev).
        split; [exact Hkeep|]. split.
        -- intros k Hk. destruct (Hfrom k Hk) as [Hin|Hin]; [left; exact Hin|].
           right. cbn. right. exact Hin.
        -- intros Hin. cbn in Hin. apply elem_of_cons in Hin as [Hd|Hin].
           ++ symmetry in Hd. contradiction.
           ++ apply Hdev, Hin.
      * exists (Err err), s1. unfold fail. auto.
Qed.

(** X8. When [Apply] on a config without supplied paths returns no error,
    the path table it leaves has a "devices" entry and only keys that are
    names of [legacySubsystems], and the config is untouched; so a
    [GetPids] on that manager does not stop at the missing-subsystem
    check: it asks for the processes under the devices path. *)
Theorem Apply_builds_path_table s pid :
  Paths (cgroups (mgr s)) = None ->
  fst (Apply pid s) = Ok tt ->
  let m' := mgr (snd (Apply pid s)) in
  cgroups m' = cgroups (mgr s)
  /\ (forall k, is_Some (paths m' !! k) ->
                k ∈ map subsystemName legacySubsystems)
  /\ exists path,
       paths m' !! "devices" = Some path
       /\ forall h,
            GetPids (mkState m' h)
            = (cgroupsGetPids h path, mkState m' (h ++ [EvGetPids path])).
Proof.
  intros Hp Hok.
  destruct (Apply pid s) as [r s'] eqn:HA. cbn [fst snd] in *. subst r.
  assert (H : exists table,
             mgr s' = mkLegacyManager (cgroups (mgr s)) table (dbus (mgr s))
             /\ (forall k, is_Some (table !! k) ->
                           k ∈ map subsystemName legacySubsystems)
             /\ is_Some (table !! "devices")).
  { unfold Apply in HA. rewrite bind_getMgr in HA. cbv zeta in HA.
    destruct (Unified (CgResources (cgroups (mgr s)))); [discriminate|].
    rewrite Hp in HA. unfold locked in HA.
    match type of HA with
    | context [EvStartUnit ?u ?p] =>
      set (props := p) in HA; set (unitName := u) in HA;
        clearbody props unitName
    end.
    unfold bind at 1 in HA. unfold call at 1 in HA. cbn [trace mgr] in HA.
    destruct (startUnit _ (dbus (mgr s)) unitName props) as [[]|e];
      [|discriminate].
    unfold bind at 1 in HA.
    destruct (resolvePathsLoop_run legacySubsystems ∅
                (mkState (mgr s)
                   ((trace s ++ [EvLock]) ++ [EvStartUnit unitName props])))
      as (res & s1 & Heq & Hm & Hres).
    rewrite Heq in HA. destruct res as [table|e]; [|discriminate].
    unfold bind at 1 in HA. unfold setPaths at 1 in HA. cbn [mgr trace] in HA.
    destruct (joinCgroupsLoop_run pid legacySubsystems
                (mkState (mkLegacyManager (cgroups (mgr s1)) table
                                          (dbus (mgr s1))) (trace s1)))
      as (res & s2 & new & Hj & Hm2 & _).
    unfold joinCgroups in HA. rewrite Hj in HA.
    inversion HA; subst res s'. clear HA.
    destruct Hres as (_ & Hfrom & Hdev).
    exists table. cbn [mgr] in *. rewrite Hm2, Hm.
    split; [reflexivity|]. split.
    - intros k Hk. destruct (Hfrom k Hk) as [Hin|Hin]; [|exact Hin].
      rewrite lookup_empty in Hin. destruct Hin; discriminate.
    - apply Hdev. unfold legacySubsystems. cbn [map subsystemName].
      right. left. }
  destruct H as (table & Hm & Hkeys & [path Hdev]).
  cbv zeta. rewrite Hm. cbn [cgroups paths].
  split; [reflexivity|]. split; [exact Hkeys|].
  exists path. split; [exact Hdev|].
  intros h. unfold GetPids. rewrite bind_getMgr. cbn [mgr paths].
  rewrite Hdev. reflexivity.
Qed.

(** X9. The unit [Apply] starts for a config without supplied paths and
    without a unified value: the start call comes right after the lock,
    its properties are the manager's own followed by the config's
    [SystemdProps], and the manager's own are: the description; for a
    ".slice" unit [Wants] of the parent slice, no [Slice] and no
    [Delegate]; for any other unit [Slice] of the parent slice, with
    [Delegate]; [PIDs] with the pid unless the pid is -1; the four
    accounting flags; [DefaultDependencies] off.  The parent slice is
    "system.slice" when the config names none. *)
Theorem Apply_unit_properties s pid :
  Paths (cgroups (mgr s)) = None ->
  Unified (CgResources (cgroups (mgr s))) = None ->
  let c := cgroups (mgr s) in
  let unitName := getUnitName c in
  let isSlice := HasSuffix unitName ".slice" in
  let slice := if String.eqb (Parent c) "" then "system.slice" else Parent c in
  exists own rest,
    trace (snd (Apply pid s))
    = trace s ++ [EvLock; EvStartUnit unitName (own ++ SystemdProps c)] ++ rest
    /\ emitted "Description" own
       = [VString (String.append "libcontainer container " (CgName c))]
    /\ emitted "Wants" own = (if isSlice then [VStrings [slice]] else [])
    /\ emitted "Slice" own = (if isSlice then [] else [VString slice])
    /\ emitted "Delegate" own = (if isSlice then [] else [VBool true])
    /\ emitted "PIDs" own
       = (if (pid =? -1)%Z then [] else [VUint32s [uint32 pid]])
    /\ emitted "MemoryAccounting" own = [VBool true]
    /\ emitted "CPUAccounting" own = [VBool true]
    /\ emitted "BlockIOAccounting" own = [VBool true]
    /\ emitted "TasksAccounting" own = [VBool true]
    /\ emitted "DefaultDependencies" own = [VBool false].
Proof.
  intros Hp Hu c unitName isSlice slice.
  unfold Apply. rewrite bind_getMgr. cbv zeta. rewrite Hu, Hp.
  fold c. fold unitName. fold isSlice.
  replace (if negb (String.eqb (Parent c) "") then Parent c else "system.slice")
    with slice by (unfold slice; destruct (String.eqb (Parent c) ""); reflexivity).
  match goal with
  | |- context [EvStartUnit unitName (?o ++ SystemdProps c)] => set (own := o)
  end.
  unfold locked. unfold bind at 1. unfold call at 1. cbn [trace mgr].
  exists own.
  match goal with
  | |- exists rest, trace (let (r, s') := ?run in _).2 = _ /\ _ =>
    destruct run as [r s1] eqn:Hrun
  end.
  assert (Hext : exists mid,
             trace s1
             = (trace s ++ [EvLock])
               ++ [EvStartUnit unitName (own ++ SystemdProps c)] ++ mid).
  { destruct (startUnit (trace s ++ [EvLock]) (dbus (mgr s)) unitName
                        (own ++ SystemdProps c)) as [[]|e].
    - pose proof (resolvePathsLoop_never_locks legacySubsystems ∅
                    (mkState (mgr s)
                       ((trace s ++ [EvLock])
                        ++ [EvStartUnit unitName (own ++ SystemdProps c)])))
        as (n1 & Ht1 & _).
      unfold bind at 1 in Hrun.
      destruct (resolvePathsLoop legacySubsystems ∅ _) as [[table|e] s2].
      + unfold bind at 1 in Hrun. unfold setPaths at 1 in Hrun.
        pose proof (joinCgroupsLoop_never_locks pid legacySubsystems
                      (mkState (mkLegacyManager (cgroups (mgr s2)) table
                                                (dbus (mgr s2))) (trace s2)))
          as (n2 & Ht2 & _).
        unfold joinCgroups in Hrun. rewrite Hrun in Ht2. cbn [snd trace] in *.
        exists (n1 ++ n2). rewrite Ht2, Ht1, <- !app_assoc. reflexivity.
      + inversion Hrun; subst. cbn [snd trace] in Ht1.
        exists n1. rewrite Ht1, <- !app_assoc. reflexivity.
    - inversion Hrun; subst. exists []. cbn. reflexivity. }
  destruct Hext as [mid Hmid].
  exists (mid ++ [EvUnlock]). split.
  { cbn [snd trace]. rewrite Hmid, <- !app_assoc. reflexivity. }
  subst own. unfold isSlice.
  destruct (HasSuffix unitName ".slice"), (pid =? -1)%Z; cbn [negb];
    repeat split; reflexivity.
Qed.

(** *** Go's string helpers, and the path of a subsystem *)

Lemma string_length_append (a b : string) :
  String.length (String.append a b) = (String.length a + String.length b)%nat.
Proof. induction a as [|c a IH]; simpl; [reflexivity|]. f_equal. exact IH. Qed.

Lemma substring_whole (b : string) : substring 0 (String.length b) b = b.
Proof. induction b as [|c b IH]; simpl; [reflexivity|]. f_equal. exact IH. Qed.

Lemma substring_append_tail (a b : string) :
  substring (String.length a) (String.length b) (String.append a b) = b.
Proof. induction a as [|c a IH]; simpl; [apply substring_whole|exact IH]. Qed.

Lemma substring_append_head (a b : string) :
  substring 0 (String.length a) (String.append a b) = a.
Proof.
  induction a as [|c a IH]; simpl.
  - destruct b; reflexivity.
  - f_equal. exact IH.
Qed.

Lemma HasSuffix_append (a suffix : string) :
  HasSuffix (String.append a suffix) suffix = true.
Proof.
  unfold HasSuffix. rewrite string_length_append.
  replace (String.length a + String.length suffix - String.length suffix)%nat
    with (String.length a) by lia.
  rewrite substring_append_tail, String.eqb_refl.
  destruct (Nat.leb_spec (String.length suffix)
                         (String.length a + String.length suffix));
    [reflexivity|lia].
Qed.

Lemma TrimSuffix_append (a suffix : string) :
  TrimSuffix (String.append a suffix) suffix = a.
Proof.
  unfold TrimSuffix. rewrite HasSuffix_append, string_length_append.
  replace (String.length a + String.length suffix - String.length suffix)%nat
    with (String.length a) by lia.
  apply substring_append_head.
Qed.

(** X10. The path of a subsystem, when the mountpoint and pid 1's cgroup
    are found and the slice expands: the mountpoint, pid 1's cleaned
    cgroup path without a trailing "init.scope" (and unchanged when it
    does not end so), the expanded slice ("system.slice" expanded when the
    config names no parent) and the unit name, joined.  When the
    mountpoint is not found pid 1's cgroup is not asked for. *)
Theorem getSubsystemPath_layout c subsys s :
  let slice := if String.eqb (Parent c) "" then "system.slice" else Parent c in
  let h1 := trace s ++ [EvFindCgroupMountpoint "" subsys] in
  (forall e, FindCgroupMountpoint (trace s) "" subsys = Err e ->
             getSubsystemPath c subsys s = (Err e, mkState (mgr s) h1))
  /\ (forall mountpoint initPath expanded,
         FindCgroupMountpoint (trace s) "" subsys = Ok mountpoint ->
         GetInitCgroup h1 subsys = Ok initPath ->
         ExpandSlice slice = Ok expanded ->
         (forall base,
             filepath_Clean initPath = String.append base "init.scope" ->
             fst (getSubsystemPath c subsys s)
             = Ok (filepath_Join [mountpoint; base; expanded; getUnitName c]))
         /\ (HasSuffix (filepath_Clean initPath) "init.scope" = false ->
             fst (getSubsystemPath c subsys s)
             = Ok (filepath_Join [mountpoint; filepath_Clean initPath;
                                  expanded; getUnitName c]))).
Proof.
  intros slice h1. split.
  - intros e He. apply getSubsystemPath_unmounted, He.
  - intros mountpoint initPath expanded Hm Hi Hs.
    assert (Heq : fst (getSubsystemPath c subsys s)
                  = Ok (filepath_Join
                          [mountpoint;
                           TrimSuffix (filepath_Clean initPath) "init.scope";
                           expanded; getUnitName c])).
    { unfold getSubsystemPath, bind, call, fromResult, ret. cbn [trace mgr].
      rewrite Hm. fold h1. rewrite Hi.
      replace (if negb (String.eqb (Parent c) "") then Parent c
               else "system.slice")
        with slice
        by (unfold slice; destruct (String.eqb (Parent c) ""); reflexivity).
      rewrite Hs. reflexivity. }
    split.
    + intros base Hb. rewrite Heq, Hb, TrimSuffix_append. reflexivity.
    + intros Hn. rewrite Heq. unfold TrimSuffix. rewrite Hn. reflexivity.
Qed.

End LegacyManagerLoops.

(** ** More on the device-filter attacher *)

Section DeviceFilterRuns.
Import Go Ebpf FilterVocabulary.
Context {Program Instructions : Type}.
Context {K : @Kernel Program Instructions}.
Implicit Types h : @History Program Instructions.

Lemma queriesIn_fetchEvents (ids : list Z) :
  queriesIn (fetchEvents ids : @History Program Instructions) = O.
Proof. induction ids as [|id ids IH]; [reflexivity|exact IH]. Qed.

Lemma fetchEvents_enumeration (ids : list Z) :
  Forall (fun e : @Event Program Instructions => isEnumerationEvent e = true)
         (fetchEvents ids).
Proof. induction ids as [|id ids IH]; constructor; [reflexivity|exact IH]. Qed.

(** The conversion never panics; it has looked up a start of the ids. *)
Lemma programsFromIDs_run ids h :
  exists r n,
    programsFromIDs ids h = (Return r, h ++ fetchEvents (take n ids)).
Proof.
  revert h. induction ids as [|id ids IH]; intros h.
  - exists (Ok []), O. cbn. rewrite app_nil_r. reflexivity.
  - cbn [programsFromIDs]. unfold bind at 1. unfold call at 1.
    destruct (NewProgramFromID h id) as [p|e].
    + destruct (IH (h ++ [EvNewProgramFromID id])) as (r & n & Heq).
      unfold bind. rewrite Heq. unfold ret.
      eexists. exists (S n). cbn [take fetchEvents map].
      rewrite <- app_assoc. reflexivity.
    + unfold ret. eexists. exists 1%nat. cbn [take fetchEvents map].
      rewrite take_0. reflexivity.
Qed.

(** X12. The conversion of ids into handles is all or nothing: at the
    first id that does not resolve it returns that error wrapped and no
    program, and the ids after it are not looked up. *)
Theorem programsFromIDs_stops_at_first_failure ids h i id e :
  ids !! i = Some id ->
  (forall j id', (j < i)%nat -> ids !! j = Some id' ->
     exists p, NewProgramFromID (h ++ fetchEvents (take j ids)) id' = Ok p) ->
  NewProgramFromID (h ++ fetchEvents (take i ids)) id = Err e ->
  programsFromIDs ids h
  = (Return (Err (ErrWrap "cannot fetch program from id" e)),
     h ++ fetchEvents (take (S i) ids)).
Proof.
  revert ids h. induction i as [|i IH]; intros ids h Hid Hbefore Hfail;
    destruct ids as [|id0 ids]; try discriminate.
  - cbn in Hid. inversion Hid; subst id0. cbn in Hfail.
    rewrite app_nil_r in Hfail.
    cbn [programsFromIDs]. unfold bind, call, ret. rewrite Hfail.
    cbn [take fetchEvents map]. rewrite take_0. reflexivity.
  - cbn in Hid. cbn [programsFromIDs]. unfold bind at 1. unfold call at 1.
    destruct (Hbefore O id0 ltac:(lia) eq_refl) as [p Hp].
    cbn in Hp. rewrite app_nil_r in Hp. rewrite Hp.
    unfold bind. rewrite (IH ids _ Hid).
    + unfold ret. cbn [take fetchEvents map]. rewrite <- app_assoc.
      reflexivity.
    + intros j id' Hj Hid'.
      destruct (Hbefore (S j) id' ltac:(lia) Hid') as [q Hq].
      exists q. cbn in Hq. rewrite <- app_assoc. exact Hq.
    + cbn in Hfail. rewrite <- app_assoc. exact Hfail.
Qed.

Lemma queryTurn_run dirFd size h :
  exists o new,
    queryTurn dirFd size h = (o, h ++ new)
    /\ Forall (fun e => isEnumerationEvent e = true) new
    /\ (queriesIn new <= 1)%nat.
Proof.
  unfold queryTurn.
  destruct (Nat.eqb size 0).
  { eexists. exists []. unfold panic. rewrite app_nil_r.
    repeat split; [constructor|cbn; lia]. }
  unfold bind at 1.
  destruct (negb (errno (progQueryReply (queriesIn h)) =? 0)%Z).
  - destruct (errno (progQueryReply (queriesIn h)) =? ENOSPC)%Z;
      unfold ret; eexists; eexists; (split; [reflexivity|]);
      (split; [repeat constructor|cbn; lia]).
  - destruct (size <? ProgCnt (progQueryReply (queriesIn h)))%nat.
    + unfold panic. eexists. eexists. split; [reflexivity|].
      split; [repeat constructor|cbn; lia].
    + match goal with
      | |- context [bind (programsFromIDs ?ids) _ ?h1] =>
        destruct (programsFromIDs_run ids h1) as (r & n & Heq);
          set (looked := fetchEvents (take n ids)) in *
      end.
      unfold bind. rewrite Heq. unfold ret.
      exists (Return (Exit r)).
      exists ([EvProgQuery (uint32 dirFd) BPF_CGROUP_DEVICE size] ++ looked).
      split; [rewrite <- app_assoc; reflexivity|].
      split.
      * constructor; [reflexivity|apply fetchEvents_enumeration].
      * rewrite queriesIn_app. unfold looked.
        rewrite queriesIn_fetchEvents. cbn. lia.
Qed.

Lemma queryLoop_run dirFd (n : nat) :
  forall size retries h,
    (0 <= retries)%Z -> (Z.to_nat (10 - retries) <= n)%nat ->
    exists new,
      snd (queryLoop dirFd size retries h) = h ++ new
      /\ Forall (fun e => isEnumerationEvent e = true) new
      /\ (queriesIn new <= Z.to_nat (10 - retries))%nat.
Proof.
  induction n as [|n IH]; intros size retries h H0 Hn.
  - rewrite queryLoop_exhausted by lia. exists []. cbn. rewrite app_nil_r.
    repeat split; [constructor|lia].
  - destruct (Z_lt_dec retries 10) as [Hlt|Hge].
    2:{ rewrite queryLoop_exhausted by lia. exists []. cbn.
        rewrite app_nil_r. repeat split; [constructor|lia]. }
    rewrite queryLoop_step by exact Hlt.
    destruct (queryTurn_run dirFd size h) as (o & new & Heq & Hf & Hq).
    rewrite Heq. destruct o as [[size'|r]|reason].
    + destruct (IH size' (retries + 1)%Z (h ++ new)) as (new' & Ht & Hf' & Hq');
        [lia|lia|].
      exists (new ++ new'). rewrite Ht, <- app_assoc.
      split; [reflexivity|]. split; [apply Forall_app; split; assumption|].
      rewrite queriesIn_app. lia.
    + exists new. repeat split; [assumption|lia].
    + exists new. repeat split; [assumption|lia].
Qed.

Lemma findAttached_run dirFd h :
  exists new,
    snd (findAttachedCgroupDeviceFilters dirFd h) = h ++ new
    /\ Forall (fun e => isEnumerationEvent e = true) new
    /\ (queriesIn new <= 10)%nat.
Proof.
  unfold findAttachedCgroupDeviceFilters.
  destruct (queryLoop_run dirFd 10 64 0 h) as (new & Ht & Hf & Hq);
    [lia|cbn; lia|].
  exists new. repeat split; [exact Ht|exact Hf|].
  change (Z.to_nat (10 - 0)) with 10%nat in Hq. exact Hq.
Qed.

(** X11. Whatever the kernel answers, the enumeration issues at most ten
    BPF_PROG_QUERY calls, and nothing but queries and id look-ups. *)
Theorem enumeration_is_bounded dirFd h :
  exists new,
    snd (findAttachedCgroupDeviceFilters dirFd h) = h ++ new
    /\ Forall (fun e => isEnumerationEvent e = true) new
    /\ (queriesIn new <= 10)%nat.
Proof. apply findAttached_run. Qed.

(** X14. Two answers the loop does not survive.  A "no space" answer that
    reports zero programs, the ninth at most, makes the next turn index an
    empty buffer and panic before any further query.  A successful answer
    whose count is larger than the buffer makes the slicing of the buffer
    panic. *)
Theorem enumeration_panics_on_bad_counts dirFd h0 k :
  let base := queriesIn h0 in
  let last := progQueryReply (base + k) in
  noSpaceTimes base k ->
  ((k < 9)%nat -> errno last = ENOSPC -> ProgCnt last = O ->
   findAttachedCgroupDeviceFilters dirFd h0
   = (Panic "index out of range [0] with length 0",
      h0 ++ queryEvents dirFd base (S k)))
  /\ ((k < 10)%nat -> errno last = 0%Z ->
      (offered base k < ProgCnt last)%nat ->
      findAttachedCgroupDeviceFilters dirFd h0
      = (Panic "slice bounds out of range",
         h0 ++ queryEvents dirFd base (S k))).
Proof.
  intros base last Hns.
  assert (Hq : queriesIn (h0 ++ queryEvents dirFd (queriesIn h0) k)
               = (base + k)%nat)
    by (rewrite queriesIn_app, queriesIn_queryEvents; reflexivity).
  pose proof (offered_nonzero _ _ Hns) as Hsize.
  unfold findAttachedCgroupDeviceFilters. split.
  - intros Hk He Hc.
    rewrite (queryLoop_after_no_space dirFd h0 k) by (exact Hns || lia).
    rewrite queryLoop_step by lia.
    rewrite queryTurn_no_space by (rewrite ?Hq; assumption).
    rewrite Hq. fold last. rewrite Hc.
    rewrite queryLoop_step by lia.
    unfold queryTurn. cbn [Nat.eqb]. unfold panic.
    rewrite queryEvents_S, app_assoc. reflexivity.
  - intros Hk He Hc.
    rewrite (queryLoop_after_no_space dirFd h0 k) by (exact Hns || lia).
    rewrite queryLoop_step by lia.
    unfold queryTurn.
    destruct (Nat.eqb_spec (offered (queriesIn h0) k) 0) as [|_];
      [contradiction|].
    unfold bind at 1. rewrite Hq. fold last. rewrite He. cbn [Z.eqb negb].
    destruct (Nat.ltb_spec (offered (queriesIn h0) k) (ProgCnt last)) as [_|];
      [|unfold base in Hc; lia].
    unfold panic. rewrite queryEvents_S, app_assoc. reflexivity.
Qed.

Lemma enumeration_never_detaches (l : @History Program Instructions) :
  Forall (fun e => isEnumerationEvent e = true) l ->
  Forall (fun e => isDetachOrWarn e = false) l.
Proof.
  intros H. induction H as [|e l He _ IH]; constructor; [|exact IH].
  destruct e; cbn in *; congruence.
Qed.

Lemma detachOldProgs_extends dirFd (l : list Program) h o h3 :
  detachOldProgs dirFd l h = (o, h3) -> exists more, h3 = h ++ more.
Proof.
  revert h. induction l as [|q l IH]; intros h Hd.
  - cbn in Hd. inversion Hd. exists []. rewrite app_nil_r. reflexivity.
  - cbn [detachOldProgs] in Hd. unfold bind at 1 in Hd.
    unfold call at 1 in Hd.
    destruct (RawDetachProgram h _) as [[]|e].
    + destruct (IH _ Hd) as [more ->]. eexists.
      rewrite <- app_assoc. reflexivity.
    + unfold ret in Hd. inversion Hd. eexists. reflexivity.
Qed.

(** X13. What the caller of [LoadAttachCgroupDeviceFilter] gets back.  The
    raise of the memlock limit is always the first call.  When the revert
    action is [nilCloser] there is an error, and no program has been
    detached and no warning logged: the installation stopped at the
    enumeration, the load or the attach.  When it is a real closure, it is
    the one of this directory and of a program whose attach, with
    BPF_F_ALLOW_MULTI, the kernel has accepted. *)
Theorem LoadAttach_revert_action insts license dirFd h0 c err h' :
  LoadAttachCgroupDeviceFilter insts license dirFd h0 = (Return (c, err), h') ->
  exists new,
    h' = h0 ++ EvSetrlimit RLIMIT_MEMLOCK RLIM_INFINITY RLIM_INFINITY :: new
    /\ match c with
       | nilCloser =>
         err <> None /\ Forall (fun e => isDetachOrWarn e = false) new
       | closer d p =>
         d = dirFd
         /\ exists pre post replace,
              let opts :=
                  mkRawAttach dirFd p replace AttachCGroupDevice
                              BPF_F_ALLOW_MULTI in
              h' = pre ++ EvRawAttachProgram opts :: post
              /\ RawAttachProgram pre opts = Ok tt
       end.
Proof.
  intros H. unfold LoadAttachCgroupDeviceFilter in H.
  unfold bind at 1 in H. unfold call at 1 in H.
  unfold bind at 1 in H.
  destruct (findAttached_run dirFd
              (h0 ++ [EvSetrlimit RLIMIT_MEMLOCK RLIM_INFINITY RLIM_INFINITY]))
    as (new1 & Ht1 & Hf1 & _).
  apply enumeration_never_detaches in Hf1.
  destruct (findAttachedCgroupDeviceFilters dirFd _) as [[r|reason] h1];
    [|discriminate].
  cbn [snd] in Ht1. subst h1.
  destruct r as [oldProgs|e].
  2:{ unfold ret in H. inversion H; subst. exists new1.
      rewrite <- app_assoc. split; [reflexivity|].
      split; [discriminate|exact Hf1]. }
  unfold bind at 1 in H. unfold call at 1 in H.
  match type of H with
  | context [NewProgram ?h ?sp] =>
    set (spec := sp) in *; destruct (NewProgram h spec) as [prog|e]
  end.
  2:{ unfold ret in H. inversion H; subst. exists (new1 ++ [EvNewProgram spec]).
      rewrite <- !app_assoc. split; [reflexivity|].
      split; [discriminate|].
      apply Forall_app. split; [exact Hf1|]. repeat constructor. }
  cbv zeta in H. unfold bind at 1 in H. unfold call at 1 in H.
  match type of H with
  | context [RawAttachProgram ?h ?o] =>
    set (opts := o) in *; set (h2 := h) in *;
      destruct (RawAttachProgram h2 opts) as [[]|e] eqn:Hattach
  end.
  2:{ unfold ret in H. inversion H; subst.
      exists (new1 ++ [EvNewProgram spec; EvRawAttachProgram opts]).
      unfold h2. rewrite <- !app_assoc. split; [reflexivity|].
      split; [discriminate|].
      apply Forall_app. split; [exact Hf1|]. repeat constructor. }
  assert (Hh' : exists post, h' = h2 ++ EvRawAttachProgram opts :: post
                             /\ c = closer dirFd prog).
  { destruct (1 <? length oldProgs)%nat.
    - unfold bind at 1 in H. unfold call at 1 in H.
      unfold bind in H.
      destruct (detachOldProgs dirFd oldProgs _) as [[err'|reason] h3] eqn:Hd;
        [|discriminate].
      destruct (detachOldProgs_extends _ _ _ _ _ Hd) as [more Hext].
      rewrite Hext in H.
      unfold ret in H. inversion H; subst.
      eexists. split; [|reflexivity]. rewrite <- !app_assoc. reflexivity.
    - unfold ret in H. inversion H; subst.
      exists []. split; reflexivity. }
  destruct Hh' as (post & -> & ->).
  exists (new1 ++ [EvNewProgram spec] ++ EvRawAttachProgram opts :: post).
  split.
  - unfold h2. rewrite <- !app_assoc. reflexivity.
  - split; [reflexivity|].
    exists h2, post,
      (if Nat.eqb (length oldProgs) 1 then head oldProgs else None).
    split; [reflexivity|exact Hattach].
Qed.

End DeviceFilterRuns.

(** ** The further properties on concrete hosts and kernels *)

Section RunsOnHosts.
Import Go Systemd Vocabulary LoopVocabulary Scenario.

Lemma supplied_paths_Set_Destroy_do_nothing_witness :
  let X := scripted calm in
  let s := stateOf joinedUnifiedConfig ∅ in
  is_Some (Paths (cgroups (mgr s)))
  /\ Set_ RefConfig s = (Ok tt, s)
  /\ Destroy s = (Ok tt, s).
Proof.
  intros X s.
  assert (H : is_Some (Paths (cgroups (mgr s)))) by (eexists; reflexivity).
  split; [exact H|].
  exact (supplied_paths_Set_Destroy_do_nothing (X := X) s RefConfig H).
Defined.

Lemma Set_with_devices_skipped_witness :
  let X := scripted calm in
  let s := stateOf skippedConfig unitPaths in
  let props := fst (genV1ResourcesProperties someResources tt) in
  SkipDevices (cgroups (mgr s)) = true
  /\ Set_ (RefOther someResources) s
     = setLoop (RefOther someResources) legacySubsystems
         (snd (Freeze Undefined
                 (mkState (mgr s) [EvSetUnitProperties "ctr.scope" props]))).
Proof.
  intros X s props. split; [reflexivity|].
  exact (proj1 (Set_with_devices_skipped (X := X) s (RefOther someResources)
                  someResources props eq_refl eq_refl eq_refl eq_refl eq_refl)).
Defined.

Lemma Set_without_freezer_path_witness :
  let X := scripted calm in
  let s := stateOf managedConfig frozenlessPaths in
  let props := fst (genV1ResourcesProperties someResources tt) in
  paths (mgr s) !! "freezer" = None
  /\ Set_ (RefOther someResources) s
     = setLoop (RefOther someResources) legacySubsystems
         (mkState (mgr s)
            [EvLogInfo "freeze container before SetUnitProperties failed"
                       errSubsystemDoesNotExist;
             EvSetUnitProperties "ctr.scope" props]).
Proof.
  intros X s props. split; [reflexivity|].
  exact (Set_without_freezer_path (X := X) s (RefOther someResources)
           someResources props eq_refl eq_refl eq_refl eq_refl eq_refl eq_refl).
Defined.

Lemma Apply_builds_path_table_witness :
  let X := scripted calm in
  let s := stateOf managedConfig ∅ in
  fst (Apply 42 s) = Ok tt
  /\ exists path, paths (mgr (snd (Apply 42 s))) !! "devices" = Some path.
Proof.
  intros X s. split; [reflexivity|].
  destruct (Apply_builds_path_table (X := X) s 42 eq_refl eq_refl)
    as (_ & _ & path & Hpath & _).
  exists path. exact Hpath.
Defined.

Lemma Apply_unit_properties_witness :
  let X := scripted calm in
  let s := stateOf managedConfig ∅ in
  exists own rest,
    trace (snd (Apply 42 s))
    = [EvLock; EvStartUnit "ctr.scope" (own ++ [])] ++ rest
    /\ emitted "Slice" own = [VString "system.slice"]
    /\ emitted "Delegate" own = [VBool true]
    /\ emitted "PIDs" own = [VUint32s [42%Z]].
Proof.
  intros X s.
  destruct (Apply_unit_properties (X := X) s 42 eq_refl eq_refl)
    as (own & rest & Ht & _ & _ & Hs & Hd & Hp & _).
  exists own, rest. repeat split; assumption.
Defined.

Lemma getSubsystemPath_layout_witness :
  let X := scripted calm in
  let s := stateOf managedConfig ∅ in
  fst (getSubsystemPath managedConfig "memory" s)
  = Ok "/sys/fs/cgroup/memory///system.slice/ctr.scope".
Proof.
  intros X s.
  exact (proj2 (proj2 (getSubsystemPath_layout (X := X) managedConfig "memory" s)
                  "/sys/fs/cgroup/memory" "/" "system.slice"
                  eq_refl eq_refl eq_refl) eq_refl).
Defined.

End RunsOnHosts.

Section RunsOnKernels.
Import Go Ebpf FilterVocabulary FilterScenario.

(** The second id of two does not resolve. *)
Lemma programsFromIDs_stops_at_first_failure_witness :
  let K := scriptedKernel []
             (fun id => if (id =? 8)%Z then Err (ErrNew "no such program")
                        else Ok id)
             (fun _ => None) in
  programsFromIDs [7%Z; 8%Z; 9%Z] []
  = (Return (Err (ErrWrap "cannot fetch program from id"
                          (ErrNew "no such program"))),
     [EvNewProgramFromID 7; EvNewProgramFromID 8]).
Proof.
  intros K.
  apply (programsFromIDs_stops_at_first_failure (K := K)
           [7%Z; 8%Z; 9%Z] [] 1 8%Z (ErrNew "no such program")).
  - reflexivity.
  - intros j id' Hj Hid. destruct j as [|j]; [|lia].
    cbn in Hid. inversion Hid. exists 7%Z. reflexivity.
  - reflexivity.
Defined.

(** The load after an empty enumeration succeeds. *)
Lemma LoadAttach_revert_action_witness :
  let K := scriptedKernel [] (fun id => Ok id) (fun _ => None) in
  exists new,
    snd (LoadAttachCgroupDeviceFilter [] "Apache" 3 [])
    = [] ++ EvSetrlimit RLIMIT_MEMLOCK RLIM_INFINITY RLIM_INFINITY :: new
    /\ exists pre post replace,
         snd (LoadAttachCgroupDeviceFilter [] "Apache" 3 [])
         = pre ++ EvRawAttachProgram
                    (mkRawAttach 3 1000%Z replace AttachCGroupDevice
                                 BPF_F_ALLOW_MULTI) :: post
         /\ RawAttachProgram pre
              (mkRawAttach 3 1000%Z replace AttachCGroupDevice
                           BPF_F_ALLOW_MULTI) = Ok tt.
Proof.
  intros K.
  assert (Hrun : LoadAttachCgroupDeviceFilter [] "Apache" 3 []
                 = (Return (closer 3 1000%Z, None),
                    snd (LoadAttachCgroupDeviceFilter [] "Apache" 3 [])))
    by reflexivity.
  destruct (LoadAttach_revert_action (K := K) [] "Apache" 3 []
              (closer 3 1000%Z) None
              (snd (LoadAttachCgroupDeviceFilter [] "Apache" 3 [])) Hrun)
    as (new & Hnew & _ & Hattach).
  exists new. split; [exact Hnew|exact Hattach].
Defined.

(** The kernel says "no space" and reports no program. *)
Lemma enumeration_panics_on_bad_counts_witness :
  let K := scriptedKernel [noSpace 0] (fun id => Ok id) (fun _ => None) in
  findAttachedCgroupDeviceFilters 3 []
  = (Panic "index out of range [0] with length 0", [queryEvent 3 64]).
Proof.
  intros K.
  assert (Hns : noSpaceTimes (K := K) (queriesIn (@nil (@Event Z (list Z)))) 0)
    by (intros i Hi; lia).
  apply (proj1 (enumeration_panics_on_bad_counts (K := K) 3 [] 0 Hns));
    [lia|reflexivity|reflexivity].
Defined.

End RunsOnKernels.
